(** * Channel-role plugin: reconciliation of a user's (channel, role) pairs

    A shallow embedding of
    - [plugin/channel-role-plugin/services/channel-role.service.ts]
      ([ChannelRoleService]: create / delete),
    - [plugin/channel-role-plugin/config/channel-role-permission-resolver-strategy.ts]
      ([ChannelRolePermissionResolverStrategy]: saveUserRoles / getPermissionsForUser),
    - the resolver class [ChannelRoleResolver] (the two overridden
      administrator mutations),
    followed by the properties of the reconciliation.

    Asynchronous code is embedded as a state-and-error monad over the
    persisted tables: every [await] is a bind, a rejected promise is [Err],
    and a state change made before a rejection stays (nothing here rolls
    back). *)

From Stdlib Require Import List String NArith Bool Lia Arith DecimalString DecimalN.
Import ListNotations.
Local Open Scope string_scope.
Local Open Scope list_scope.

(* ================================================================= *)
(** ** Identifiers *)

(** [ID] of [@vendure/common/lib/shared-types]: [string | number].  Numeric
    ids are the non-negative integers an auto-increment column produces. *)
Inductive ID : Type :=
| IdNum (n : N)
| IdStr (s : string).

(** [id.toString()]: a number prints in decimal, a string is itself. *)
Definition toString (id : ID) : string :=
  match id with
  | IdNum n => NilEmpty.string_of_uint (N.to_uint n)
  | IdStr s => s
  end.

(** Modelled from the spec: [idsAreEqual] is imported from [common/index]
    and is not part of the plugin's files; the spec describes it as "an
    equality predicate that normalizes both representations before
    comparing", i.e. it compares the printed forms, so that [1] and ["1"]
    are the same id. *)
Definition idsAreEqual (id1 id2 : ID) : bool :=
  String.eqb (toString id1) (toString id2).

(* ================================================================= *)
(** ** Entities and inputs *)

(** A permission is a member of the string enum [Permission]. *)
Definition Permission : Type := string.

Module User.
Record t : Type := mk { id : ID; identifier : string }.
End User.

Module Channel.
Record t : Type := mk { id : ID; token : string; code : string }.
End Channel.

Module Role.
Record t : Type := mk { id : ID; code : string; permissions : list Permission }.
End Role.

(** The junction row of [ChannelRole]: its own id and the three foreign
    keys the strategy reads ([cr.channelId], [cr.roleId]) or filters on
    ([user.id]). *)
Module ChannelRole.
Record t : Type := mk { id : ID; userId : ID; channelId : ID; roleId : ID }.

(** [new ChannelRole({ user, channel, role })]: an entity not yet saved. *)
Record draft : Type := new { user : User.t; channel : Channel.t; role : Role.t }.

(** A row loaded with [relations: ['user', 'channel', 'role']]; a relation
    whose target row is missing is [null]. *)
Record loaded : Type :=
  mkLoaded { row : t;
             rel_user : option User.t;
             rel_channel : option Channel.t;
             rel_role : option Role.t }.
End ChannelRole.

(** [ChannelRoleInput] of [types.ts]. *)
Module ChannelRoleInput.
Record t : Type := mk { channelId : ID; roleId : ID }.
End ChannelRoleInput.

(** The argument object of [ChannelRoleService.create]. *)
Module CreateInput.
Record t : Type := mk { userId : ID; channelId : ID; roleId : ID }.
End CreateInput.

Module UserChannelPermissions.
Record t : Type :=
  mk { id : ID; token : string; code : string; permissions : list Permission }.
End UserChannelPermissions.

Inductive DeletionResult : Type := DELETED | NOT_DELETED.

Module DeletionResponse.
(** [message] is optional in the generated type. *)
Record t : Type := mk { result : DeletionResult; message : option string }.
End DeletionResponse.

(* ================================================================= *)
(** ** Errors *)

Inductive Error : Type :=
| EntityNotFoundError (entityName : string) (id : ID)
| InternalServerError (key : string) (message : string)
| IllegalOperationError (key : string)
| QueryFailedError (message : option string)
| TypeError.

(** [e.message] as read in the [catch] of [delete]. *)
Definition errorMessage (e : Error) : option string :=
  match e with
  | EntityNotFoundError _ _ => Some "error.entity-with-id-not-found"
  | InternalServerError key _ => Some key
  | IllegalOperationError key => Some key
  | QueryFailedError m => m
  | TypeError => Some "TypeError"
  end.

Inductive Result (A : Type) : Type :=
| Ok (a : A)
| Err (e : Error).
Arguments Ok {A} a.
Arguments Err {A} e.

(* ================================================================= *)
(** ** The persisted state *)

(** The tables the plugin touches.  [nextId] is the auto-increment counter
    of the junction table.  [removeFailures] lists the junction rows whose
    removal the database refuses, with the [message] of the error it
    throws ([None] when the thrown value has no message). *)
Record Store : Type :=
  mkStore { users : list User.t;
            channels : list Channel.t;
            roles : list Role.t;
            channelRoles : list ChannelRole.t;
            nextId : N;
            removeFailures : list (ID * option string) }.

(** Calls received by [ChannelRoleService], oldest first.  This history is
    not program state: it records which creations and deletions a caller
    issued, and in which order. *)
Inductive ServiceCall : Type :=
| CallCreate (input : CreateInput.t)
| CallDelete (id : ID).

Record World : Type := mkWorld { db : Store; calls : list ServiceCall }.

(* ================================================================= *)
(** ** The monad of asynchronous, fallible, stateful code *)

Definition M (A : Type) : Type := World -> Result A * World.

Definition ret {A} (a : A) : M A := fun w => (Ok a, w).

Definition throw {A} (e : Error) : M A := fun w => (Err e, w).

Definition bind {A B} (m : M A) (k : A -> M B) : M B :=
  fun w =>
    match m w with
    | (Ok a, w') => k a w'
    | (Err e, w') => (Err e, w')
    end.

Declare Scope async_scope.
Delimit Scope async_scope with async.
Notation "x <- m ;; k" := (bind m (fun x => k))
  (at level 61, m at next level, right associativity) : async_scope.
Notation "m ;; k" := (bind m (fun _ => k))
  (at level 61, right associativity) : async_scope.
Local Open Scope async_scope.

(** [try { m } catch (e) { handler(e) }]. *)
Definition tryCatch {A} (m : M A) (handler : Error -> M A) : M A :=
  fun w =>
    match m w with
    | (Ok a, w') => (Ok a, w')
    | (Err e, w') => handler e w'
    end.

(** Two promises already started and awaited jointly: both run (a
    rejection cancels nothing), and the joint promise rejects with the
    rejection of the earlier-listed one. *)
Definition joint {A B} (a : M A) (b : M B) : M (A * B) :=
  fun w =>
    let (ra, w1) := a w in
    let (rb, w2) := b w1 in
    (match ra, rb with
     | Ok x, Ok y => Ok (x, y)
     | Err e, _ => Err e
     | Ok _, Err e => Err e
     end, w2).

(** [Promise.all([a, b, c])] on three promises of different types. *)
Definition promiseAll3 {A B C} (a : M A) (b : M B) (c : M C) : M (A * B * C) :=
  fun w =>
    match joint a (joint b c) w with
    | (Ok (x, (y, z)), w') => (Ok (x, y, z), w')
    | (Err e, w') => (Err e, w')
    end.

(** [Promise.all(tasks)].  The tasks are independent service calls; their
    interleaving is represented by running them in list order. *)
Fixpoint promiseAll {A} (tasks : list (M A)) : M (list A) :=
  match tasks with
  | [] => ret []
  | t :: ts =>
      fun w =>
        match joint t (promiseAll ts) w with
        | (Ok (x, xs), w') => (Ok (x :: xs), w')
        | (Err e, w') => (Err e, w')
        end
  end.

(** [for (const x of xs) { await body(x) }]: a throw leaves the loop. *)
Fixpoint forOf {A} (xs : list A) (body : A -> M unit) : M unit :=
  match xs with
  | [] => ret tt
  | x :: rest => body x ;; forOf rest body
  end.

Definition logCall (c : ServiceCall) : M unit :=
  fun w => (Ok tt, mkWorld (db w) (calls w ++ [c])).

(* ================================================================= *)
(** ** The persistence accessor *)

(** Modelled from the spec: [TransactionalConnection] and the repositories
    it hands out belong to the host framework and are not among the
    plugin's files.  The spec's boundary contract: "given an entity kind
    and id, returns the entity or fails with NotFound; given an entity
    kind, returns a repository supporting find (by filter), save, and
    remove".  A [where] clause on an id matches as the database compares
    ids, on their normal form; [find] returns rows in insertion order. *)
Definition findOneById {A} (getId : A -> ID) (table : list A) (id : ID) : option A :=
  find (fun e => idsAreEqual (getId e) id) table.

Definition removeFailure (s : Store) (id : ID) : option (option string) :=
  option_map snd (find (fun f => idsAreEqual (fst f) id) (removeFailures s)).

Definition withChannelRoles (s : Store) (rows : list ChannelRole.t) (next : N) : Store :=
  mkStore (users s) (channels s) (roles s) rows next (removeFailures s).

Definition ofUser (userId : ID) (cr : ChannelRole.t) : bool :=
  idsAreEqual (ChannelRole.userId cr) userId.

Definition loadRelations (s : Store) (cr : ChannelRole.t) : ChannelRole.loaded :=
  ChannelRole.mkLoaded cr
    (findOneById User.id (users s) (ChannelRole.userId cr))
    (findOneById Channel.id (channels s) (ChannelRole.channelId cr))
    (findOneById Role.id (roles s) (ChannelRole.roleId cr)).

Section Plugin.

(** The request context is an opaque handle: it is passed through every
    call and never inspected. *)
Context {RequestContext : Type}.

(** [connection.getEntityOrThrow(ctx, Entity, id)]. *)
Definition getEntityOrThrow {A} (ctx : RequestContext) (entityName : string)
    (table : Store -> list A) (getId : A -> ID) (id : ID) : M A :=
  fun w =>
    match findOneById getId (table (db w)) id with
    | Some e => (Ok e, w)
    | None => (Err (EntityNotFoundError entityName id), w)
    end.

(** [getRepository(ctx, ChannelRole).find({ where: { user: { id } } })]. *)
Definition findByUser (ctx : RequestContext) (userId : ID) : M (list ChannelRole.t) :=
  fun w => (Ok (filter (ofUser userId) (channelRoles (db w))), w).

(** [getRepository(ctx, ChannelRole).save(entity)] of a new entity: the row
    gets the next id and is appended to the table. *)
Definition save (ctx : RequestContext) (entity : ChannelRole.draft) : M ChannelRole.t :=
  fun w =>
    let s := db w in
    let row := ChannelRole.mk (IdNum (nextId s))
                 (User.id (ChannelRole.user entity))
                 (Channel.id (ChannelRole.channel entity))
                 (Role.id (ChannelRole.role entity)) in
    (Ok row,
     mkWorld (withChannelRoles s (channelRoles s ++ [row]) (N.succ (nextId s))) (calls w)).

(** [getRepository(ctx, ChannelRole).remove(entity)]: deletes by primary
    key, or throws when the database refuses. *)
Definition remove (ctx : RequestContext) (entity : ChannelRole.t) : M unit :=
  fun w =>
    let s := db w in
    match removeFailure s (ChannelRole.id entity) with
    | Some m => (Err (QueryFailedError m), w)
    | None =>
        (Ok tt,
         mkWorld (withChannelRoles s
                    (filter (fun cr => negb (idsAreEqual (ChannelRole.id cr) (ChannelRole.id entity)))
                       (channelRoles s))
                    (nextId s))
           (calls w))
    end.

(** [rawConnection.getRepository(ChannelRole).find({ where, relations })]. *)
Definition findByUserWithRelations (userId : ID) : M (list ChannelRole.loaded) :=
  fun w =>
    (Ok (map (loadRelations (db w)) (filter (ofUser userId) (channelRoles (db w)))), w).

(* ================================================================= *)
(** ** ChannelRoleService *)

Definition create (ctx : RequestContext) (input : CreateInput.t) : M ChannelRole.t :=
  logCall (CallCreate input) ;;
  loaded <- promiseAll3
              (getEntityOrThrow ctx "User" users User.id (CreateInput.userId input))
              (getEntityOrThrow ctx "Channel" channels Channel.id (CreateInput.channelId input))
              (getEntityOrThrow ctx "Role" roles Role.id (CreateInput.roleId input)) ;;
  let '(user, channel, role) := loaded in
  let entity := ChannelRole.new user channel role in
  save ctx entity.

Definition delete (ctx : RequestContext) (id : ID) : M DeletionResponse.t :=
  logCall (CallDelete id) ;;
  channelRole <- getEntityOrThrow ctx "ChannelRole" channelRoles ChannelRole.id id ;;
  tryCatch
    (remove ctx channelRole ;;
     ret (DeletionResponse.mk DELETED None))
    (fun e => ret (DeletionResponse.mk NOT_DELETED (errorMessage e))).

(* ================================================================= *)
(** ** ChannelRolePermissionResolverStrategy *)

(** The predicate of [currentChannelRoles.find(cr => ...)] for the desired
    pair [channelRole]. *)
Definition matchesInput (channelRole : ChannelRoleInput.t) (cr : ChannelRole.t) : bool :=
  idsAreEqual (ChannelRole.roleId cr) (ChannelRoleInput.roleId channelRole) &&
  idsAreEqual (ChannelRole.channelId cr) (ChannelRoleInput.channelId channelRole).

(** The predicate of [input.find(cr => ...)] for the current row
    [channelRole]. *)
Definition matchesRow (channelRole : ChannelRole.t) (cr : ChannelRoleInput.t) : bool :=
  idsAreEqual (ChannelRoleInput.roleId cr) (ChannelRole.roleId channelRole) &&
  idsAreEqual (ChannelRoleInput.channelId cr) (ChannelRole.channelId channelRole).

(** [!xs.find(p)]: [find] yields an object (truthy) or [undefined]. *)
Definition notFound {A} (p : A -> bool) (xs : list A) : bool :=
  match find p xs with
  | Some _ => false
  | None => true
  end.

(** The first loop: the desired pairs with no matching current row, each
    pushed as it is met. *)
Definition toAddPairs (currentChannelRoles : list ChannelRole.t)
    (input : list ChannelRoleInput.t) : list ChannelRoleInput.t :=
  filter (fun channelRole => notFound (matchesInput channelRole) currentChannelRoles) input.

(** The second loop: the current rows with no matching desired pair. *)
Definition toRemoveChannelRoles (currentChannelRoles : list ChannelRole.t)
    (input : list ChannelRoleInput.t) : list ChannelRole.t :=
  filter (fun channelRole => notFound (matchesRow channelRole) input) currentChannelRoles.

(** [response.message || 'Unknown error']: [undefined] and the empty string
    are falsy. *)
Definition messageOr (message : option string) (fallback : string) : string :=
  match message with
  | Some m => if String.eqb m "" then fallback else m
  | None => fallback
  end.

Definition createAll (ctx : RequestContext) (user : User.t)
    (pairs : list ChannelRoleInput.t) : M (list ChannelRole.t) :=
  promiseAll
    (map (fun pair =>
            create ctx (CreateInput.mk (User.id user)
                          (ChannelRoleInput.channelId pair)
                          (ChannelRoleInput.roleId pair)))
       pairs).

Definition removeAll (ctx : RequestContext) (rows : list ChannelRole.t) : M unit :=
  forOf rows (fun channelRole =>
    response <- delete ctx (ChannelRole.id channelRole) ;;
    match DeletionResponse.result response with
    | NOT_DELETED =>
        throw (InternalServerError "error.channel-role-deletion-failed"
                 (messageOr (DeletionResponse.message response) "Unknown error"))
    | DELETED => ret tt
    end).

Definition saveUserRoles (ctx : RequestContext) (user : User.t)
    (input : list ChannelRoleInput.t) : M unit :=
  currentChannelRoles <- findByUser ctx (User.id user) ;;
  let toAdd := toAddPairs currentChannelRoles input in
  let toRemove := toRemoveChannelRoles currentChannelRoles input in
  createAll ctx user toAdd ;;
  removeAll ctx toRemove.

(** [entry.channel.id] and [entry.role.permissions] on a loaded row: reading
    a property of [null] throws. *)
Definition toPermissions (entry : ChannelRole.loaded) : Result UserChannelPermissions.t :=
  match ChannelRole.rel_channel entry, ChannelRole.rel_role entry with
  | Some channel, Some role =>
      Ok (UserChannelPermissions.mk (Channel.id channel) (Channel.token channel)
            (Channel.code channel) (Role.permissions role))
  | _, _ => Err TypeError
  end.

(** [entries.map(f)] with a callback that may throw. *)
Fixpoint mapResult {A B} (f : A -> Result B) (xs : list A) : Result (list B) :=
  match xs with
  | [] => Ok []
  | x :: rest =>
      match f x with
      | Err e => Err e
      | Ok y =>
          match mapResult f rest with
          | Err e => Err e
          | Ok ys => Ok (y :: ys)
          end
      end
  end.

Definition getPermissionsForUser (user : User.t) : M (list UserChannelPermissions.t) :=
  channelRoleEntries <- findByUserWithRelations (User.id user) ;;
  fun w => (mapResult toPermissions channelRoleEntries, w).

(* ================================================================= *)
(** ** ChannelRoleResolver: the overridden mutations *)

Section Resolver.

(** The generated argument types and the [Administrator] entity are opaque
    to the two overrides. *)
Context {MutationCreateAdministratorArgs MutationUpdateAdministratorArgs Administrator : Type}.

Definition createAdministrator (ctx : RequestContext)
    (args : MutationCreateAdministratorArgs) : M Administrator :=
  throw (IllegalOperationError "error.channel-role-plugin-create-administrator-deprecated").

Definition updateAdministrator (ctx : RequestContext)
    (args : MutationUpdateAdministratorArgs) : M Administrator :=
  throw (IllegalOperationError "error.channel-role-plugin-update-administrator-deprecated").

End Resolver.

End Plugin.

(* ================================================================= *)
(** ** Derived notions used in the statements *)

(** The normal form of a (channelId, roleId) pair: two pairs are the same
    under [idsAreEqual] exactly when their keys are equal. *)
Definition pairKey (channelId roleId : ID) : string * string :=
  (toString channelId, toString roleId).

Definition inputKey (p : ChannelRoleInput.t) : string * string :=
  pairKey (ChannelRoleInput.channelId p) (ChannelRoleInput.roleId p).

Definition rowKey (cr : ChannelRole.t) : string * string :=
  pairKey (ChannelRole.channelId cr) (ChannelRole.roleId cr).

(** The persisted associations of a user, and their pairs. *)
Definition associationsOf (s : Store) (userId : ID) : list ChannelRole.t :=
  filter (ofUser userId) (channelRoles s).

Definition persistedPairs (s : Store) (userId : ID) : list (string * string) :=
  map rowKey (associationsOf s userId).

(** Two lists of keys denote the same set. *)
Definition sameSet (xs ys : list (string * string)) : Prop :=
  forall k, In k xs <-> In k ys.

(** Primary-key discipline of the junction table: row ids are pairwise
    different (also across the two representations of an id), and the
    counter is ahead of every id in use. *)
Definition rowIds (rows : list ChannelRole.t) : list string :=
  map (fun cr => toString (ChannelRole.id cr)) rows.

Definition primaryKeysOk (s : Store) : Prop :=
  NoDup (rowIds (channelRoles s)) /\
  forall n, (nextId s <= n)%N -> ~ In (toString (IdNum n)) (rowIds (channelRoles s)).

(** A checker for tables keyed by numbers, as an auto-increment column
    fills them. *)
Definition numericKey (cr : ChannelRole.t) : option N :=
  match ChannelRole.id cr with
  | IdNum n => Some n
  | IdStr _ => None
  end.

Fixpoint keysBelow (bound : N) (seen : list N) (rows : list ChannelRole.t) : bool :=
  match rows with
  | [] => true
  | cr :: rest =>
      match numericKey cr with
      | Some n =>
          (n <? bound)%N && negb (existsb (N.eqb n) seen) && keysBelow bound (n :: seen) rest
      | None => false
      end
  end.

Definition primaryKeysOkb (s : Store) : bool :=
  keysBelow (nextId s) [] (channelRoles s).

(** Foreign keys of a user's rows resolve (referential integrity). *)
Definition relationsResolve (s : Store) (userId : ID) : Prop :=
  forall cr, In cr (associationsOf s userId) ->
    findOneById Channel.id (channels s) (ChannelRole.channelId cr) <> None /\
    findOneById Role.id (roles s) (ChannelRole.roleId cr) <> None.

(** The rows left after removing those whose id is among [ids]. *)
Definition without (ids : list ID) (rows : list ChannelRole.t) : list ChannelRole.t :=
  filter (fun cr => negb (existsb (idsAreEqual (ChannelRole.id cr)) ids)) rows.

Definition createInputOf (user : User.t) (pair : ChannelRoleInput.t) : CreateInput.t :=
  CreateInput.mk (User.id user) (ChannelRoleInput.channelId pair) (ChannelRoleInput.roleId pair).

(** The calls a caller added to the history. *)
Definition isCreateFor (key : string * string) (c : ServiceCall) : bool :=
  match c with
  | CallCreate i =>
      String.eqb (fst key) (toString (CreateInput.channelId i)) &&
      String.eqb (snd key) (toString (CreateInput.roleId i))
  | CallDelete _ => false
  end.

Definition isDelete (c : ServiceCall) : bool :=
  match c with
  | CallDelete _ => true
  | CallCreate _ => false
  end.

Definition hasKey (key : string * string) (p : ChannelRoleInput.t) : bool :=
  String.eqb (fst key) (toString (ChannelRoleInput.channelId p)) &&
  String.eqb (snd key) (toString (ChannelRoleInput.roleId p)).

(** The world after a call was recorded. *)
Definition logged (w : World) (c : ServiceCall) : World :=
  mkWorld (db w) (calls w ++ [c]).

(** The tables a reconciliation only reads. *)
Definition sameTables (s s' : Store) : Prop :=
  users s' = users s /\ channels s' = channels s /\ roles s' = roles s /\
  removeFailures s' = removeFailures s.

(** The creation calls for a list of pairs, and the deletion calls for a
    list of rows, in list order. *)
Definition createCalls (user : User.t) (pairs : list ChannelRoleInput.t) : list ServiceCall :=
  map (fun p => CallCreate (createInputOf user p)) pairs.

Definition deleteCalls (rows : list ChannelRole.t) : list ServiceCall :=
  map (fun cr => CallDelete (ChannelRole.id cr)) rows.

Definition idsOf (rows : list ChannelRole.t) : list ID := map ChannelRole.id rows.

(** The database accepts the removal of the row. *)
Definition removable (s : Store) (cr : ChannelRole.t) : Prop :=
  removeFailure s (ChannelRole.id cr) = None.

Definition deletionFailedKey : string := "error.channel-role-deletion-failed".

(** A row created for one of the pairs of [pairs], on behalf of [user]. *)
Definition createdFor (user : User.t) (pairs : list ChannelRoleInput.t)
    (row : ChannelRole.t) : Prop :=
  ofUser (User.id user) row = true /\
  exists p, In p pairs /\ matchesInput p row = true.

(** The calls issued between two worlds of one execution. *)
Definition issued (before after : World) : list ServiceCall :=
  skipn (List.length (calls before)) (calls after).

Definition rowHasKey (key : string * string) (cr : ChannelRole.t) : bool :=
  String.eqb (fst key) (toString (ChannelRole.channelId cr)) &&
  String.eqb (snd key) (toString (ChannelRole.roleId cr)).

(** The entry built from an association: the channel and the role its
    foreign keys resolve to. *)
Definition viewOf (s : Store) (cr : ChannelRole.t) (entry : UserChannelPermissions.t) : Prop :=
  exists channel role,
    findOneById Channel.id (channels s) (ChannelRole.channelId cr) = Some channel /\
    findOneById Role.id (roles s) (ChannelRole.roleId cr) = Some role /\
    entry = UserChannelPermissions.mk (Channel.id channel) (Channel.token channel)
              (Channel.code channel) (Role.permissions role).

(* ================================================================= *)
(** ** A small installation for the examples *)

Definition alice : User.t := User.mk (IdNum 42) "alice".

Definition channel1 : Channel.t := Channel.mk (IdNum 1) "token-1" "channel-1".
Definition channel2 : Channel.t := Channel.mk (IdNum 2) "token-2" "channel-2".

Definition role10 : Role.t := Role.mk (IdNum 10) "catalog" ["ReadCatalog"; "UpdateCatalog"].
Definition role20 : Role.t := Role.mk (IdNum 20) "orders" ["ReadOrder"; "UpdateOrder"].
Definition role99 : Role.t := Role.mk (IdNum 99) "settings" ["ReadSettings"].

Definition pair (channelId roleId : N) : ChannelRoleInput.t :=
  ChannelRoleInput.mk (IdNum channelId) (IdNum roleId).

(** No association yet. *)
Definition freshStore : Store :=
  mkStore [alice] [channel1; channel2] [role10; role20; role99] [] 1 [].

(** [alice] holds (1, 10) and (2, 20); the database refuses to remove the
    rows listed in [failures]. *)
Definition assignedStore (failures : list (ID * option string)) : Store :=
  mkStore [alice] [channel1; channel2] [role10; role20; role99]
    [ChannelRole.mk (IdNum 1) (IdNum 42) (IdNum 1) (IdNum 10);
     ChannelRole.mk (IdNum 2) (IdNum 42) (IdNum 2) (IdNum 20)]
    3 failures.

(** [alice] holds two roles in the same channel. *)
Definition twoRolesStore : Store :=
  mkStore [alice] [channel1; channel2] [role10; role20; role99]
    [ChannelRole.mk (IdNum 1) (IdNum 42) (IdNum 1) (IdNum 10);
     ChannelRole.mk (IdNum 2) (IdNum 42) (IdNum 1) (IdNum 20)]
    3 [].

Definition row1 : ChannelRole.t := ChannelRole.mk (IdNum 1) (IdNum 42) (IdNum 1) (IdNum 10).
Definition row2 : ChannelRole.t := ChannelRole.mk (IdNum 2) (IdNum 42) (IdNum 2) (IdNum 20).

Definition start (s : Store) : World := mkWorld s [].

(** A desired list with a repeated pair, one occurrence written with
    string ids. *)
Definition repeatedInput : list ChannelRoleInput.t :=
  [pair 2 20; ChannelRoleInput.mk (IdStr "1") (IdStr "10"); pair 2 20; pair 1 10].

(* ================================================================= *)
(** ** ChannelRoleService.update *)

(** The argument object of [ChannelRoleService.update]. *)
Module UpdateInput.
Record t : Type := mk { id : ID; userId : ID; channelId : ID; roleId : ID }.
End UpdateInput.

(** [Promise.all([a, b, c, d])] on four promises of different types. *)
Definition promiseAll4 {A B C D} (a : M A) (b : M B) (c : M C) (d : M D)
  : M (A * B * C * D) :=
  fun w =>
    match joint a (joint b (joint c d)) w with
    | (Ok (x, (y, (z, t))), w') => (Ok (x, y, z, t), w')
    | (Err e, w') => (Err e, w')
    end.

(** The row [entity] written over the rows that have its primary key. *)
Definition overwrite (entity : ChannelRole.t) (rows : list ChannelRole.t)
  : list ChannelRole.t :=
  map (fun cr =>
         if idsAreEqual (ChannelRole.id cr) (ChannelRole.id entity) then entity else cr)
    rows.

Section PluginUpdate.

Context {RequestContext : Type}.

(** Modelled from the spec: [getRepository(ctx, ChannelRole).save(entity)]
    of an entity that carries an id.  The repository belongs to the host
    framework; it updates the row with that primary key when there is one
    and inserts the entity otherwise. *)
Definition saveLoaded (ctx : RequestContext) (entity : ChannelRole.t) : M ChannelRole.t :=
  fun w =>
    let s := db w in
    if existsb (fun cr => idsAreEqual (ChannelRole.id cr) (ChannelRole.id entity))
         (channelRoles s)
    then (Ok entity,
          mkWorld (withChannelRoles s (overwrite entity (channelRoles s)) (nextId s)) (calls w))
    else (Ok entity,
          mkWorld (withChannelRoles s (channelRoles s ++ [entity]) (nextId s)) (calls w)).

(** [channelRole.user = user; channelRole.channel = channel;
    channelRole.role = role]: the three references are replaced, the id
    stays. *)
Definition repoint (channelRole : ChannelRole.t) (user : User.t) (channel : Channel.t)
    (role : Role.t) : ChannelRole.t :=
  ChannelRole.mk (ChannelRole.id channelRole) (User.id user) (Channel.id channel)
    (Role.id role).

Definition update (ctx : RequestContext) (input : UpdateInput.t) : M ChannelRole.t :=
  loaded <- promiseAll4
              (getEntityOrThrow ctx "ChannelRole" channelRoles ChannelRole.id
                 (UpdateInput.id input))
              (getEntityOrThrow ctx "User" users User.id (UpdateInput.userId input))
              (getEntityOrThrow ctx "Channel" channels Channel.id (UpdateInput.channelId input))
              (getEntityOrThrow ctx "Role" roles Role.id (UpdateInput.roleId input)) ;;
  let '(channelRole, user, channel, role) := loaded in
  let channelRole := repoint channelRole user channel role in
  saveLoaded ctx channelRole.

End PluginUpdate.

(* ================================================================= *)
(** ** getChannelIdsFromAdministratorMutationInput *)

(** The mutation input [T & { channelRoles }]: the administrator fields
    [T] are not read; [channelRoles] may be missing at run time, which is
    what [?? []] is for. *)
Module AdministratorMutationInput.
Record t (T : Type) : Type :=
  mk { fields : T; channelRoles : option (list ChannelRoleInput.t) }.
Arguments mk {T} fields channelRoles.
Arguments fields {T} _.
Arguments channelRoles {T} _.
End AdministratorMutationInput.

Section PluginInput.

Context {RequestContext : Type}.

Definition getChannelIdsFromAdministratorMutationInput {T : Type}
    (ctx : RequestContext) (input : AdministratorMutationInput.t T)
  : M (list ChannelRoleInput.t) :=
  ret (match AdministratorMutationInput.channelRoles input with
       | Some channelRoles => channelRoles
       | None => []
       end).

End PluginInput.

(** One of the three references of a creation does not resolve. *)
Definition unresolved (s : Store) (input : CreateInput.t) : Prop :=
  findOneById User.id (users s) (CreateInput.userId input) = None \/
  findOneById Channel.id (channels s) (CreateInput.channelId input) = None \/
  findOneById Role.id (roles s) (CreateInput.roleId input) = None.

(** The entry of the permission view that a desired pair stands for. *)
Definition viewOfPair (s : Store) (p : ChannelRoleInput.t)
    (entry : UserChannelPermissions.t) : Prop :=
  exists channel role,
    findOneById Channel.id (channels s) (ChannelRoleInput.channelId p) = Some channel /\
    findOneById Role.id (roles s) (ChannelRoleInput.roleId p) = Some role /\
    entry = UserChannelPermissions.mk (Channel.id channel) (Channel.token channel)
              (Channel.code channel) (Role.permissions role).

(** A second administrator, for the examples. *)
Definition bob : User.t := User.mk (IdNum 43) "bob".

(** [alice] holds (1, 10) and (2, 20), [bob] holds (1, 20). *)
Definition sharedStore : Store :=
  mkStore [alice; bob] [channel1; channel2] [role10; role20; role99]
    [ChannelRole.mk (IdNum 1) (IdNum 42) (IdNum 1) (IdNum 10);
     ChannelRole.mk (IdNum 2) (IdNum 43) (IdNum 1) (IdNum 20);
     ChannelRole.mk (IdNum 3) (IdNum 42) (IdNum 2) (IdNum 20)]
    4 [].

(** A row created for the pair [p], on behalf of [user]. *)
Definition createdAs (user : User.t) (p : ChannelRoleInput.t) (row : ChannelRole.t) : Prop :=
  ofUser (User.id user) row = true /\ matchesInput p row = true.

(** [alice]'s second association points at a channel that is gone. *)
Definition danglingStore : Store :=
  mkStore [alice] [channel1] [role10; role20; role99]
    [ChannelRole.mk (IdNum 1) (IdNum 42) (IdNum 1) (IdNum 10);
     ChannelRole.mk (IdNum 2) (IdNum 42) (IdNum 2) (IdNum 20)]
    3 [].

(* ================================================================= *)
(** ** Identifier equality *)

Lemma idsAreEqual_true (a b : ID) : idsAreEqual a b = true <-> toString a = toString b.
Proof. unfold idsAreEqual. apply String.eqb_eq. Qed.

Lemma idsAreEqual_false (a b : ID) : idsAreEqual a b = false <-> toString a <> toString b.
Proof. unfold idsAreEqual. apply String.eqb_neq. Qed.

Lemma idsAreEqual_refl (a : ID) : idsAreEqual a a = true.
Proof. apply idsAreEqual_true. reflexivity. Qed.

Lemma idsAreEqual_sym (a b : ID) : idsAreEqual a b = idsAreEqual b a.
Proof. unfold idsAreEqual. apply String.eqb_sym. Qed.

Lemma idsAreEqual_congr (a b c : ID) :
  idsAreEqual a b = true -> idsAreEqual a c = idsAreEqual b c.
Proof.
  intros H. apply idsAreEqual_true in H. unfold idsAreEqual. now rewrite H.
Qed.

Lemma toString_IdNum_inj (m n : N) : toString (IdNum m) = toString (IdNum n) -> m = n.
Proof.
  simpl. intros H.
  apply Unsigned.to_uint_inj.
  assert (E : Some (N.to_uint m) = Some (N.to_uint n)).
  { rewrite <- (NilEmpty.usu (N.to_uint m)), <- (NilEmpty.usu (N.to_uint n)). now rewrite H. }
  now inversion E.
Qed.

Lemma matchesInput_key (p : ChannelRoleInput.t) (cr : ChannelRole.t) :
  matchesInput p cr = true <-> rowKey cr = inputKey p.
Proof.
  unfold matchesInput, rowKey, inputKey, pairKey.
  rewrite andb_true_iff, !idsAreEqual_true.
  split.
  - intros [Hr Hc]. now rewrite Hr, Hc.
  - intros H. inversion H. auto.
Qed.

Lemma matchesRow_key (cr : ChannelRole.t) (p : ChannelRoleInput.t) :
  matchesRow cr p = true <-> rowKey cr = inputKey p.
Proof.
  unfold matchesRow, rowKey, inputKey, pairKey.
  rewrite andb_true_iff, !idsAreEqual_true.
  split.
  - intros [Hr Hc]. now rewrite Hr, Hc.
  - intros H. inversion H. auto.
Qed.

Lemma hasKey_true (k : string * string) (p : ChannelRoleInput.t) :
  hasKey k p = true <-> inputKey p = k.
Proof.
  destruct k as [c r]. unfold hasKey, inputKey, pairKey. simpl.
  rewrite andb_true_iff, !String.eqb_eq.
  split.
  - intros [-> ->]. reflexivity.
  - intros H. inversion H. auto.
Qed.

(** [!xs.find(p)] holds exactly when no element satisfies [p]. *)
Lemma notFound_true {A} (p : A -> bool) (xs : list A) :
  notFound p xs = true <-> forall x, In x xs -> p x = false.
Proof.
  unfold notFound. destruct (find p xs) eqn:E.
  - split; [discriminate|].
    intros H. apply find_some in E. destruct E as [Hin Hp].
    rewrite (H _ Hin) in Hp. discriminate.
  - split; [|reflexivity]. intros _. now apply find_none.
Qed.

Lemma notFound_false {A} (p : A -> bool) (xs : list A) :
  notFound p xs = false <-> exists x, In x xs /\ p x = true.
Proof.
  unfold notFound. destruct (find p xs) eqn:E.
  - split; [|reflexivity]. intros _. apply find_some in E. eauto.
  - split; [discriminate|].
    intros [x [Hin Hp]]. rewrite (find_none _ _ E _ Hin) in Hp. discriminate.
Qed.

Section Properties.

Context {RequestContext : Type}.
Implicit Types (ctx : RequestContext) (w : World) (s : Store).

(* ================================================================= *)
(** ** What one service call does *)

Lemma create_run ctx (input : CreateInput.t) w :
  create ctx input w =
  match findOneById User.id (users (db w)) (CreateInput.userId input),
        findOneById Channel.id (channels (db w)) (CreateInput.channelId input),
        findOneById Role.id (roles (db w)) (CreateInput.roleId input) with
  | Some user, Some channel, Some role =>
      let row := ChannelRole.mk (IdNum (nextId (db w)))
                   (User.id user) (Channel.id channel) (Role.id role) in
      (Ok row,
       mkWorld (withChannelRoles (db w) (channelRoles (db w) ++ [row]) (N.succ (nextId (db w))))
         (calls w ++ [CallCreate input]))
  | None, _, _ =>
      (Err (EntityNotFoundError "User" (CreateInput.userId input)), logged w (CallCreate input))
  | Some _, None, _ =>
      (Err (EntityNotFoundError "Channel" (CreateInput.channelId input)), logged w (CallCreate input))
  | Some _, Some _, None =>
      (Err (EntityNotFoundError "Role" (CreateInput.roleId input)), logged w (CallCreate input))
  end.
Proof.
  unfold create, bind, logCall, promiseAll3, joint, getEntityOrThrow, save, logged. simpl.
  destruct (findOneById User.id _ _), (findOneById Channel.id _ _),
    (findOneById Role.id _ _); reflexivity.
Qed.

Lemma delete_run ctx (id : ID) w :
  delete ctx id w =
  match findOneById ChannelRole.id (channelRoles (db w)) id with
  | None => (Err (EntityNotFoundError "ChannelRole" id), logged w (CallDelete id))
  | Some channelRole =>
      match removeFailure (db w) (ChannelRole.id channelRole) with
      | Some m => (Ok (DeletionResponse.mk NOT_DELETED m), logged w (CallDelete id))
      | None =>
          (Ok (DeletionResponse.mk DELETED None),
           mkWorld (withChannelRoles (db w)
                      (without [ChannelRole.id channelRole] (channelRoles (db w)))
                      (nextId (db w)))
             (calls w ++ [CallDelete id]))
      end
  end.
Proof.
  unfold delete, bind, logCall, tryCatch, getEntityOrThrow, remove, ret, logged. simpl.
  destruct (findOneById ChannelRole.id _ _) as [cr|]; [|reflexivity].
  destruct (removeFailure _ _) as [m|]; [reflexivity|].
  unfold without. simpl. do 3 f_equal.
  apply filter_ext. intros a. now rewrite orb_false_r.
Qed.

(** A created row carries the ids of the entities that were loaded, which
    equal the requested ids up to representation. *)
Lemma create_ok_inv ctx (input : CreateInput.t) w (row : ChannelRole.t) w' :
  create ctx input w = (Ok row, w') ->
  ChannelRole.id row = IdNum (nextId (db w)) /\
  idsAreEqual (ChannelRole.userId row) (CreateInput.userId input) = true /\
  idsAreEqual (ChannelRole.channelId row) (CreateInput.channelId input) = true /\
  idsAreEqual (ChannelRole.roleId row) (CreateInput.roleId input) = true /\
  w' = mkWorld (withChannelRoles (db w) (channelRoles (db w) ++ [row]) (N.succ (nextId (db w))))
         (calls w ++ [CallCreate input]).
Proof.
  rewrite create_run.
  destruct (findOneById User.id _ _) as [u|] eqn:Eu; [|discriminate].
  destruct (findOneById Channel.id _ _) as [c|] eqn:Ec; [|discriminate].
  destruct (findOneById Role.id _ _) as [r|] eqn:Er; [|discriminate].
  cbv zeta. intros H. inversion H; subst; clear H. simpl.
  apply find_some in Eu, Ec, Er.
  repeat split; tauto.
Qed.

Lemma create_err_inv ctx (input : CreateInput.t) w (e : Error) w' :
  create ctx input w = (Err e, w') ->
  (exists name id, e = EntityNotFoundError name id) /\ w' = logged w (CallCreate input).
Proof.
  rewrite create_run.
  destruct (findOneById User.id _ _) as [u|];
    [destruct (findOneById Channel.id _ _) as [c|];
     [destruct (findOneById Role.id _ _) as [r|]|]|];
    cbv zeta; intros H; inversion H; subst; eauto.
Qed.

(* ================================================================= *)
(** ** Primary keys *)

Lemma rowIds_app (xs ys : list ChannelRole.t) : rowIds (xs ++ ys) = rowIds xs ++ rowIds ys.
Proof. apply map_app. Qed.

Lemma primaryKeysOk_save s :
  primaryKeysOk s ->
  forall userId channelId roleId,
    primaryKeysOk
      (withChannelRoles s
         (channelRoles s ++ [ChannelRole.mk (IdNum (nextId s)) userId channelId roleId])
         (N.succ (nextId s))).
Proof.
  intros [Hnd Hfresh] u c r. split; simpl.
  - rewrite rowIds_app. simpl.
    apply NoDup_app; [exact Hnd | repeat constructor; simpl; tauto |].
    intros x Hx [<-|[]]. apply (Hfresh (nextId s)); [lia | exact Hx].
  - intros n Hn. rewrite rowIds_app, in_app_iff. simpl.
    intros [Hin|[Heq|[]]].
    + apply (Hfresh n); [lia | exact Hin].
    + apply toString_IdNum_inj in Heq. lia.
Qed.

Lemma keysBelow_sound (bound : N) (rows : list ChannelRole.t) :
  forall seen, keysBelow bound seen rows = true ->
    NoDup (rowIds rows) /\
    (forall cr, In cr rows -> exists n, ChannelRole.id cr = IdNum n /\ (n < bound)%N /\ ~ In n seen).
Proof.
  induction rows as [|cr rest IH]; intros seen H; simpl in *.
  - split; [constructor | tauto].
  - unfold numericKey in H. destruct (ChannelRole.id cr) as [n|] eqn:Eid; [|discriminate].
    apply andb_true_iff in H. destruct H as [H Hrest].
    apply andb_true_iff in H. destruct H as [Hlt Hseen].
    apply N.ltb_lt in Hlt. apply negb_true_iff in Hseen.
    destruct (IH _ Hrest) as [Hnd Hall].
    split.
    + constructor; [|exact Hnd].
      unfold rowIds. rewrite in_map_iff. intros [cr' [Heq Hin]].
      destruct (Hall _ Hin) as [m [Em [_ Hm]]].
      rewrite Em in Heq. apply toString_IdNum_inj in Heq. subst m.
      apply Hm. now left.
    + intros cr' [<-|Hin].
      * exists n. repeat split; [exact Eid | exact Hlt |].
        intros Hin. assert (existsb (N.eqb n) seen = true).
        { apply existsb_exists. exists n. split; [exact Hin | apply N.eqb_refl]. }
        congruence.
      * destruct (Hall _ Hin) as [m [Em [Hm Hns]]].
        exists m. repeat split; [exact Em | exact Hm |].
        intros Hin'. apply Hns. now right.
Qed.

Lemma primaryKeysOkb_sound s : primaryKeysOkb s = true -> primaryKeysOk s.
Proof.
  unfold primaryKeysOkb. intros H.
  destruct (keysBelow_sound _ _ _ H) as [Hnd Hall].
  split; [exact Hnd|].
  intros n Hn. unfold rowIds. rewrite in_map_iff. intros [cr [Heq Hin]].
  destruct (Hall _ Hin) as [m [Em [Hm _]]].
  rewrite Em in Heq. apply toString_IdNum_inj in Heq. lia.
Qed.

(* ================================================================= *)
(** ** Removing rows by id *)

Lemma without_nil (rows : list ChannelRole.t) : without [] rows = rows.
Proof.
  unfold without. simpl. induction rows as [|cr rest IH]; simpl; [reflexivity|].
  now rewrite IH.
Qed.

Lemma filter_twice {A} (f g : A -> bool) (l : list A) :
  filter f (filter g l) = filter (fun x => g x && f x) l.
Proof.
  induction l as [|x l IH]; simpl; [reflexivity|].
  destruct (g x); simpl; [destruct (f x)|]; now rewrite IH.
Qed.

Lemma without_cons (a : ID) (ids : list ID) (rows : list ChannelRole.t) :
  without (a :: ids) rows = without ids (without [a] rows).
Proof.
  unfold without. rewrite filter_twice. apply filter_ext. intros cr. simpl.
  rewrite orb_false_r. now rewrite negb_orb.
Qed.

Lemma without_congr (a b : ID) (rows : list ChannelRole.t) :
  idsAreEqual a b = true -> without [a] rows = without [b] rows.
Proof.
  intros H. unfold without. apply filter_ext. intros cr. simpl.
  rewrite (idsAreEqual_sym _ a), (idsAreEqual_sym _ b).
  now rewrite (idsAreEqual_congr _ _ _ H).
Qed.

Lemma in_without (ids : list ID) (rows : list ChannelRole.t) (cr : ChannelRole.t) :
  In cr (without ids rows) <->
  In cr rows /\ forall i, In i ids -> idsAreEqual (ChannelRole.id cr) i = false.
Proof.
  unfold without. rewrite filter_In, negb_true_iff.
  split; intros [Hin H]; split; auto.
  - intros i Hi. destruct (idsAreEqual (ChannelRole.id cr) i) eqn:E; [|reflexivity].
    assert (existsb (idsAreEqual (ChannelRole.id cr)) ids = true)
      by (apply existsb_exists; eauto).
    congruence.
  - destruct (existsb _ ids) eqn:E; [|reflexivity].
    apply existsb_exists in E. destruct E as [i [Hi Hi']].
    rewrite (H _ Hi) in Hi'. discriminate.
Qed.

Lemma removeFailure_congr s (a b : ID) :
  idsAreEqual a b = true -> removeFailure s a = removeFailure s b.
Proof.
  intros H. unfold removeFailure. f_equal. 
  assert (E : forall l : list (ID * option string),
             find (fun f => idsAreEqual (fst f) a) l = find (fun f => idsAreEqual (fst f) b) l).
  { induction l as [|f l IH]; simpl; [reflexivity|].
    rewrite (idsAreEqual_sym _ a), (idsAreEqual_sym _ b), (idsAreEqual_congr _ _ _ H).
    now rewrite IH. }
  apply E.
Qed.

Lemma sameTables_refl s : sameTables s s.
Proof. repeat split. Qed.

Lemma sameTables_trans s1 s2 s3 : sameTables s1 s2 -> sameTables s2 s3 -> sameTables s1 s3.
Proof.
  unfold sameTables. intros (A & B & C & D) (A' & B' & C' & D').
  repeat split; congruence.
Qed.

Lemma removeFailure_same s s' (id : ID) :
  sameTables s s' -> removeFailure s' id = removeFailure s id.
Proof. intros (_ & _ & _ & H). unfold removeFailure. now rewrite H. Qed.

(* ================================================================= *)
(** ** The creation phase *)

Lemma createAll_nil ctx (user : User.t) w : createAll ctx user [] w = (Ok [], w).
Proof. reflexivity. Qed.

Lemma createAll_spec ctx (user : User.t) (pairs : list ChannelRoleInput.t) :
  forall w res w',
    createAll ctx user pairs w = (res, w') ->
    calls w' = calls w ++ createCalls user pairs /\
    sameTables (db w) (db w') /\
    (primaryKeysOk (db w) -> primaryKeysOk (db w')) /\
    exists newRows,
      channelRoles (db w') = channelRoles (db w) ++ newRows /\
      Forall (createdFor user pairs) newRows /\
      (forall rows, res = Ok rows ->
         forall p, In p pairs -> exists row, In row newRows /\ matchesInput p row = true) /\
      (forall e, res = Err e -> exists name id, e = EntityNotFoundError name id).
Proof.
  induction pairs as [|p ps IH]; intros w res w' H.
  - rewrite createAll_nil in H. inversion H; subst; clear H.
    split; [simpl; now rewrite app_nil_r|].
    split; [apply sameTables_refl|].
    split; [tauto|].
    exists []. rewrite app_nil_r.
    repeat split; [constructor | intros ? _ ? [] | discriminate].
  - unfold createAll in H. simpl in H. unfold joint in H.
    destruct (create ctx _ w) as [r1 w1] eqn:E1.
    change (promiseAll (map _ ps)) with (createAll ctx user ps) in H.
    destruct (createAll ctx user ps w1) as [r2 w2] eqn:E2.
    destruct (IH _ _ _ E2) as (Hcalls & Htab & Hpk & newRows & Hrows & Hfor & Hok & Herr).
    assert (Hw' : w' = w2) by (destruct r1, r2; inversion H; reflexivity).
    subst w2.
    assert (Hwiden : forall row, createdFor user ps row -> createdFor user (p :: ps) row).
    { intros row [Hu [q [Hq Hm]]]. split; [exact Hu|]. exists q. split; [now right | exact Hm]. }
    destruct r1 as [row|e1].
    + apply create_ok_inv in E1. simpl in E1.
      destruct E1 as (Hid & Huser & Hchan & Hrole & ->). simpl in *.
      split; [rewrite Hcalls, <- app_assoc; reflexivity|].
      split; [exact Htab|].
      split.
      { intros Hpk0. apply Hpk. destruct row as [i u c r]. simpl in Hid. subst i.
        now apply primaryKeysOk_save. }
      exists (row :: newRows).
      split; [rewrite Hrows, <- app_assoc; reflexivity|].
      split.
      { constructor.
        - split; [exact Huser|]. exists p. split; [now left|].
          unfold matchesInput. now rewrite Hrole, Hchan.
        - eapply Forall_impl; [exact Hwiden | exact Hfor]. }
      split.
      { intros rows Hres q [<-|Hq].
        - exists row. split; [now left|]. unfold matchesInput. now rewrite Hrole, Hchan.
        - destruct r2 as [rows2|e2]; [|inversion H; subst; discriminate].
          destruct (Hok _ eq_refl _ Hq) as [row' [Hin Hm]].
          exists row'. split; [now right | exact Hm]. }
      { intros e He. destruct r2 as [rows2|e2]; inversion H; subst; try discriminate.
        apply Herr. congruence. }
    + apply create_err_inv in E1. destruct E1 as [(name & id & ->) ->].
      unfold logged in *. simpl in *.
      split; [rewrite Hcalls, <- app_assoc; reflexivity|].
      split; [exact Htab|].
      split; [exact Hpk|].
      exists newRows.
      split; [exact Hrows|].
      split; [eapply Forall_impl; [exact Hwiden | exact Hfor]|].
      split.
      { intros rows Hres. destruct r2; inversion H; subst; discriminate. }
      { intros e He. subst res. destruct r2; inversion H; subst; eauto. }
Qed.

(* ================================================================= *)
(** ** The removal phase *)

Lemma removeAll_nil ctx w : removeAll ctx [] w = (Ok tt, w).
Proof. reflexivity. Qed.

Lemma removeAll_cons ctx (cr : ChannelRole.t) (rest : list ChannelRole.t) w :
  removeAll ctx (cr :: rest) w =
  match delete ctx (ChannelRole.id cr) w with
  | (Ok response, w1) =>
      match DeletionResponse.result response with
      | NOT_DELETED =>
          (Err (InternalServerError deletionFailedKey
                  (messageOr (DeletionResponse.message response) "Unknown error")), w1)
      | DELETED => removeAll ctx rest w1
      end
  | (Err e, w1) => (Err e, w1)
  end.
Proof.
  unfold removeAll. simpl. unfold bind.
  destruct (delete ctx (ChannelRole.id cr) w) as [[response|e] w1]; [|reflexivity].
  destruct (DeletionResponse.result response); reflexivity.
Qed.

(** How a removal phase ends: either every row was deleted, or it stopped
    at the first row [cr] whose deletion did not go through, after the rows
    [pre] before it were deleted and without touching the rows [post]
    after it. *)
Lemma removeAll_spec ctx (rows : list ChannelRole.t) :
  forall w res w',
    removeAll ctx rows w = (res, w') ->
    sameTables (db w) (db w') /\ nextId (db w') = nextId (db w) /\
    ((res = Ok tt /\
      calls w' = calls w ++ deleteCalls rows /\
      channelRoles (db w') = without (idsOf rows) (channelRoles (db w)) /\
      Forall (removable (db w)) rows)
     \/
     (exists pre cr post e,
        rows = pre ++ cr :: post /\
        res = Err e /\
        calls w' = calls w ++ deleteCalls (pre ++ [cr]) /\
        channelRoles (db w') = without (idsOf pre) (channelRoles (db w)) /\
        Forall (removable (db w)) pre /\
        ((findOneById ChannelRole.id (channelRoles (db w')) (ChannelRole.id cr) = None /\
          e = EntityNotFoundError "ChannelRole" (ChannelRole.id cr))
         \/
         (exists m, removeFailure (db w) (ChannelRole.id cr) = Some m /\
                    e = InternalServerError deletionFailedKey (messageOr m "Unknown error"))))).
Proof.
  induction rows as [|cr rest IH]; intros w res w' H.
  - rewrite removeAll_nil in H. inversion H; subst; clear H.
    split; [apply sameTables_refl|]. split; [reflexivity|].
    left. simpl. rewrite app_nil_r, without_nil. repeat split. constructor.
  - rewrite removeAll_cons, delete_run in H.
    destruct (findOneById ChannelRole.id (channelRoles (db w)) (ChannelRole.id cr))
      as [found|] eqn:Efind.
    + assert (Hsame : idsAreEqual (ChannelRole.id found) (ChannelRole.id cr) = true)
        by (apply find_some in Efind; tauto).
      rewrite (removeFailure_congr _ _ _ Hsame) in H.
      destruct (removeFailure (db w) (ChannelRole.id cr)) as [m|] eqn:Efail.
      * simpl in H. inversion H; subst; clear H.
        split; [apply sameTables_refl|]. split; [reflexivity|].
        right. exists [], cr, rest, (InternalServerError deletionFailedKey (messageOr m "Unknown error")).
        simpl. rewrite without_nil.
        repeat split; [constructor|]. right. eauto.
      * simpl in H.
        destruct (IH _ _ _ H) as (Htab & Hnext & Hcases). simpl in Htab, Hnext, Hcases.
        assert (Htab0 : sameTables (db w) (db w')).
        { destruct Htab as (A & B & C & D). repeat split; assumption. }
        split; [exact Htab0|]. split; [exact Hnext|].
        rewrite (without_congr _ _ _ Hsame) in Hcases.
        destruct Hcases as [(Hres & Hcalls & Hrows & Hrem)
                           |(pre & bad & post & e & Hsplit & Hres & Hcalls & Hrows & Hrem & Hwhy)].
        -- left. split; [exact Hres|].
           split; [rewrite Hcalls, <- app_assoc; reflexivity|].
           split; [rewrite Hrows; symmetry; apply without_cons|].
           constructor; [exact Efail | exact Hrem].
        -- right. exists (cr :: pre), bad, post, e.
           split; [simpl; now rewrite Hsplit|].
           split; [exact Hres|].
           split; [rewrite Hcalls, <- app_assoc; reflexivity|].
           split; [rewrite Hrows; symmetry; apply without_cons|].
           split; [constructor; [exact Efail | exact Hrem]|].
           exact Hwhy.
    + inversion H; subst; clear H. unfold logged. simpl.
      split; [apply sameTables_refl|]. split; [reflexivity|].
      right. exists [], cr, rest, (EntityNotFoundError "ChannelRole" (ChannelRole.id cr)).
      simpl. rewrite without_nil.
      repeat split; [constructor|]. left. split; [exact Efind | reflexivity].
Qed.

(* ================================================================= *)
(** ** saveUserRoles, phase by phase *)

Lemma saveUserRoles_run ctx (user : User.t) (input : list ChannelRoleInput.t) w :
  saveUserRoles ctx user input w =
  let current := associationsOf (db w) (User.id user) in
  match createAll ctx user (toAddPairs current input) w with
  | (Ok _, w1) => removeAll ctx (toRemoveChannelRoles current input) w1
  | (Err e, w1) => (Err e, w1)
  end.
Proof.
  unfold saveUserRoles, bind, findByUser, associationsOf. cbv zeta.
  destruct (createAll ctx user _ w) as [[rows|e] w1]; reflexivity.
Qed.

Lemma in_toAddPairs (current : list ChannelRole.t) (input : list ChannelRoleInput.t)
    (p : ChannelRoleInput.t) :
  In p (toAddPairs current input) <->
  In p input /\ forall cr, In cr current -> rowKey cr <> inputKey p.
Proof.
  unfold toAddPairs. rewrite filter_In, notFound_true.
  split; intros [Hin H]; split; auto; intros cr Hcr.
  - intros Hk. apply matchesInput_key in Hk. rewrite (H _ Hcr) in Hk. discriminate.
  - destruct (matchesInput p cr) eqn:E; [|reflexivity].
    apply matchesInput_key in E. now apply H in E.
Qed.

Lemma in_toRemoveChannelRoles (current : list ChannelRole.t)
    (input : list ChannelRoleInput.t) (cr : ChannelRole.t) :
  In cr (toRemoveChannelRoles current input) <->
  In cr current /\ forall p, In p input -> rowKey cr <> inputKey p.
Proof.
  unfold toRemoveChannelRoles. rewrite filter_In, notFound_true.
  split; intros [Hin H]; split; auto; intros p Hp.
  - intros Hk. apply matchesRow_key in Hk. rewrite (H _ Hp) in Hk. discriminate.
  - destruct (matchesRow cr p) eqn:E; [|reflexivity].
    apply matchesRow_key in E. now apply H in E.
Qed.

Lemma in_associationsOf s (userId : ID) (cr : ChannelRole.t) :
  In cr (associationsOf s userId) <-> In cr (channelRoles s) /\ ofUser userId cr = true.
Proof. unfold associationsOf. apply filter_In. Qed.

(** Two rows of a table with distinct ids are the same row as soon as
    their ids print alike. *)
Lemma row_of_id (rows : list ChannelRole.t) (x y : ChannelRole.t) :
  NoDup (rowIds rows) -> In x rows -> In y rows ->
  toString (ChannelRole.id x) = toString (ChannelRole.id y) -> x = y.
Proof.
  unfold rowIds.
  induction rows as [|a rows IH]; simpl; intros Hnd Hx Hy Hid; [tauto|].
  inversion Hnd as [|? ? Hnotin Hnd']; subst.
  destruct Hx as [<-|Hx], Hy as [<-|Hy]; auto.
  - exfalso. apply Hnotin. rewrite Hid.
    now apply (in_map (fun r => toString (ChannelRole.id r))).
  - exfalso. apply Hnotin. rewrite <- Hid.
    now apply (in_map (fun r => toString (ChannelRole.id r))).
Qed.

(** Selecting rows keeps their ids distinct. *)
Lemma rowIds_filter (keep : ChannelRole.t -> bool) (rows : list ChannelRole.t) :
  NoDup (rowIds rows) -> NoDup (rowIds (filter keep rows)).
Proof.
  unfold rowIds.
  induction rows as [|a rows IH]; simpl; intros Hnd; [constructor|].
  inversion Hnd as [|? ? Hnotin Hnd']; subst.
  destruct (keep a); simpl; [|auto].
  constructor; [|auto].
  rewrite in_map_iff. intros [x [Hx Hin]]. apply Hnotin.
  rewrite <- Hx. apply (in_map (fun r => toString (ChannelRole.id r))).
  apply filter_In in Hin. tauto.
Qed.

(** A row that is not to be removed survives the removal of the rows that
    are, because no two rows share an id. *)
Lemma kept_row (rows toRemove : list ChannelRole.t) (cr : ChannelRole.t) :
  NoDup (rowIds rows) ->
  incl toRemove rows ->
  In cr rows ->
  ~ In cr toRemove ->
  In cr (without (idsOf toRemove) rows).
Proof.
  intros Hnd Hincl Hin Hnot. apply in_without. split; [exact Hin|].
  intros i Hi. unfold idsOf in Hi. apply in_map_iff in Hi. destruct Hi as [t [<- Ht]].
  destruct (idsAreEqual (ChannelRole.id cr) (ChannelRole.id t)) eqn:E; [|reflexivity].
  exfalso. apply Hnot. apply idsAreEqual_true in E.
  assert (cr = t) as ->; [|exact Ht].
  apply (row_of_id rows); auto.
Qed.

Lemma removed_row (rows toRemove : list ChannelRole.t) (cr : ChannelRole.t) :
  In cr toRemove -> ~ In cr (without (idsOf toRemove) rows).
Proof.
  intros Hin Hw. apply in_without in Hw. destruct Hw as [_ H].
  specialize (H (ChannelRole.id cr)). rewrite idsAreEqual_refl in H.
  assert (In (ChannelRole.id cr) (idsOf toRemove)) by (now apply in_map).
  specialize (H H0). discriminate.
Qed.

(** After a successful reconciliation, the user's rows and the desired
    pairs match each other. *)
Lemma saveUserRoles_ok_rows ctx (user : User.t) (input : list ChannelRoleInput.t) w w' :
  primaryKeysOk (db w) ->
  saveUserRoles ctx user input w = (Ok tt, w') ->
  (forall cr, In cr (associationsOf (db w') (User.id user)) ->
     exists p, In p input /\ rowKey cr = inputKey p) /\
  (forall p, In p input ->
     exists cr, In cr (associationsOf (db w') (User.id user)) /\ rowKey cr = inputKey p).
Proof.
  intros Hpk Hsave. rewrite saveUserRoles_run in Hsave. cbv zeta in Hsave.
  set (current := associationsOf (db w) (User.id user)) in *.
  destruct (createAll ctx user (toAddPairs current input) w) as [[created|e] w1] eqn:Ecreate;
    [|discriminate].
  destruct (createAll_spec _ _ _ _ _ _ Ecreate)
    as (_ & _ & Hpk1 & newRows & Hrows1 & Hnew & Hall & _).
  specialize (Hpk1 Hpk). specialize (Hall _ eq_refl).
  destruct (removeAll_spec _ _ _ _ _ Hsave) as (_ & _ & Hcases).
  destruct Hcases as [(_ & _ & Hrows2 & _)|(pre & bad & post & e & _ & Hres & _)];
    [|discriminate].
  set (toRemove := toRemoveChannelRoles current input) in *.
  assert (Hincl : incl toRemove (channelRoles (db w1))).
  { intros t Ht. apply in_toRemoveChannelRoles in Ht. destruct Ht as [Ht _].
    apply in_associationsOf in Ht. rewrite Hrows1. apply in_or_app. left. tauto. }
  destruct Hpk1 as [Hnd _].
  split.
  - intros cr Hcr. apply in_associationsOf in Hcr. destruct Hcr as [Hcr Huser].
    rewrite Hrows2 in Hcr. 
    assert (Hnot : ~ In cr toRemove) by (intros Ht; exact (removed_row _ _ _ Ht Hcr)).
    apply in_without in Hcr. destruct Hcr as [Hcr _].
    rewrite Hrows1 in Hcr. apply in_app_or in Hcr. destruct Hcr as [Hold|Hnew'].
    + destruct (notFound (matchesRow cr) input) eqn:E.
      * exfalso. apply Hnot. unfold toRemove, toRemoveChannelRoles.
        apply filter_In. split; [|exact E].
        apply in_associationsOf. tauto.
      * apply notFound_false in E. destruct E as [p [Hp Hm]].
        exists p. split; [exact Hp|]. now apply matchesRow_key.
    + rewrite Forall_forall in Hnew. destruct (Hnew _ Hnew') as [_ [p [Hp Hm]]].
      exists p. split; [|now apply matchesInput_key].
      apply in_toAddPairs in Hp. tauto.
  - intros p Hp.
    assert (Hex : exists cr, In cr (channelRoles (db w1)) /\ ofUser (User.id user) cr = true /\
                             rowKey cr = inputKey p).
    { destruct (notFound (matchesInput p) current) eqn:E.
      - assert (Hadd : In p (toAddPairs current input))
          by (unfold toAddPairs; apply filter_In; tauto).
        destruct (Hall _ Hadd) as [row [Hrow Hm]].
        exists row. rewrite Hrows1. split; [apply in_or_app; now right|].
        rewrite Forall_forall in Hnew. destruct (Hnew _ Hrow) as [Hu _].
        split; [exact Hu | now apply matchesInput_key].
      - apply notFound_false in E. destruct E as [cr [Hcr Hm]].
        apply in_associationsOf in Hcr.
        exists cr. rewrite Hrows1. split; [apply in_or_app; left; tauto|].
        split; [tauto | now apply matchesInput_key]. }
    destruct Hex as [cr (Hcr & Hu & Hk)].
    exists cr. split; [|exact Hk].
    apply in_associationsOf. split; [|exact Hu].
    rewrite Hrows2. apply kept_row; auto.
    intros Ht. apply in_toRemoveChannelRoles in Ht. destruct Ht as [_ Ht].
    exact (Ht _ Hp Hk).
Qed.

(* ================================================================= *)
(** ** Convergence and idempotence *)

(** C1 (convergence).  When [saveUserRoles] completes without error on a
    table with sound primary keys, the set of (channelId, roleId) pairs
    persisted for the user is the desired list seen as a set: order and
    repetitions in the input do not matter, and ids are compared up to
    their representation. *)
Theorem saveUserRoles_converges ctx (user : User.t) (input : list ChannelRoleInput.t) w w' :
  primaryKeysOk (db w) ->
  saveUserRoles ctx user input w = (Ok tt, w') ->
  sameSet (persistedPairs (db w') (User.id user)) (map inputKey input).
Proof.
  intros Hpk Hsave.
  destruct (saveUserRoles_ok_rows _ _ _ _ _ Hpk Hsave) as [Hrows Hpairs].
  intros k. unfold persistedPairs. rewrite !in_map_iff. split.
  - intros [cr [<- Hcr]]. destruct (Hrows _ Hcr) as [p [Hp Hk]]. exists p. auto.
  - intros [p [<- Hp]]. destruct (Hpairs _ Hp) as [cr [Hcr Hk]]. exists cr. auto.
Qed.

Lemma filter_none {A} (f : A -> bool) (l : list A) :
  (forall x, In x l -> f x = false) -> filter f l = [].
Proof.
  induction l as [|a l IH]; simpl; intros H; [reflexivity|].
  rewrite (H a) by now left. apply IH. intros x Hx. apply H. now right.
Qed.

(** C3 (idempotence).  A second [saveUserRoles] with the same input, run on
    the world the first successful one left, computes an empty diff,
    succeeds, and returns that world as it was: same tables, and no call to
    the service recorded. *)
Theorem saveUserRoles_idempotent ctx (user : User.t) (input : list ChannelRoleInput.t) w w' :
  primaryKeysOk (db w) ->
  saveUserRoles ctx user input w = (Ok tt, w') ->
  toAddPairs (associationsOf (db w') (User.id user)) input = [] /\
  toRemoveChannelRoles (associationsOf (db w') (User.id user)) input = [] /\
  saveUserRoles ctx user input w' = (Ok tt, w') /\
  issued w' (snd (saveUserRoles ctx user input w')) = [].
Proof.
  intros Hpk Hsave.
  destruct (saveUserRoles_ok_rows _ _ _ _ _ Hpk Hsave) as [Hrows Hpairs].
  assert (Hadd : toAddPairs (associationsOf (db w') (User.id user)) input = []).
  { apply filter_none. intros p Hp. apply notFound_false.
    destruct (Hpairs _ Hp) as [cr [Hcr Hk]]. exists cr. split; [exact Hcr|].
    now apply matchesInput_key. }
  assert (Hrem : toRemoveChannelRoles (associationsOf (db w') (User.id user)) input = []).
  { apply filter_none. intros cr Hcr. apply notFound_false.
    destruct (Hrows _ Hcr) as [p [Hp Hk]]. exists p. split; [exact Hp|].
    now apply matchesRow_key. }
  assert (Hagain : saveUserRoles ctx user input w' = (Ok tt, w')).
  { rewrite saveUserRoles_run. cbv zeta. rewrite Hadd, Hrem. reflexivity. }
  repeat split; auto.
  rewrite Hagain. unfold issued. simpl. apply skipn_all.
Qed.

(* ================================================================= *)
(** ** The calls one reconciliation issues *)

Lemma firstn_length_app {A} (l r : list A) : firstn (List.length l) (l ++ r) = l.
Proof. induction l as [|a l IH]; simpl; [now destruct r | now rewrite IH]. Qed.

Lemma issued_app w w' (l : list ServiceCall) : calls w' = calls w ++ l -> issued w w' = l.
Proof.
  intros H. unfold issued. rewrite H, skipn_app, skipn_all, Nat.sub_diag. reflexivity.
Qed.

(** Every creation of the diff is issued, in input order; then the
    deletions of the diff, in order, up to some position. *)
Lemma saveUserRoles_calls ctx (user : User.t) (input : list ChannelRoleInput.t) w :
  exists k,
    calls (snd (saveUserRoles ctx user input w)) =
    calls w
    ++ createCalls user (toAddPairs (associationsOf (db w) (User.id user)) input)
    ++ deleteCalls
         (firstn k (toRemoveChannelRoles (associationsOf (db w) (User.id user)) input)).
Proof.
  rewrite saveUserRoles_run. cbv zeta.
  set (current := associationsOf (db w) (User.id user)).
  destruct (createAll ctx user (toAddPairs current input) w) as [[created|e] w1] eqn:Ecreate;
    destruct (createAll_spec _ _ _ _ _ _ Ecreate) as (Hcalls & _).
  - destruct (removeAll ctx (toRemoveChannelRoles current input) w1) as [res w2] eqn:Eremove.
    destruct (removeAll_spec _ _ _ _ _ Eremove) as (_ & _ & Hcases). simpl.
    destruct Hcases as [(_ & Hcalls2 & _)|(pre & bad & post & e & Hsplit & _ & Hcalls2 & _)].
    + exists (List.length (toRemoveChannelRoles current input)).
      rewrite firstn_all, Hcalls2, Hcalls, <- app_assoc. reflexivity.
    + exists (List.length (pre ++ [bad])).
      rewrite Hsplit.
      replace (pre ++ bad :: post) with ((pre ++ [bad]) ++ post)
        by (rewrite <- app_assoc; reflexivity).
      rewrite firstn_length_app, Hcalls2, Hcalls, <- app_assoc. reflexivity.
  - exists 0%nat. simpl. rewrite Hcalls, app_nil_r. reflexivity.
Qed.

Lemma filter_isCreateFor_createCalls (user : User.t) (key : string * string)
    (pairs : list ChannelRoleInput.t) :
  List.length (filter (isCreateFor key) (createCalls user pairs)) =
  List.length (filter (hasKey key) pairs).
Proof.
  unfold createCalls.
  induction pairs as [|p ps IH]; [reflexivity|].
  cbn [map filter].
  change (isCreateFor key (CallCreate (createInputOf user p))) with (hasKey key p).
  destruct (hasKey key p); cbn [List.length]; now rewrite IH.
Qed.

Lemma filter_isCreateFor_deleteCalls (key : string * string) (rows : list ChannelRole.t) :
  filter (isCreateFor key) (deleteCalls rows) = [].
Proof. induction rows as [|cr rest IH]; simpl; [reflexivity | exact IH]. Qed.

Lemma rowHasKey_true (key : string * string) (cr : ChannelRole.t) :
  rowHasKey key cr = true <-> rowKey cr = key.
Proof.
  destruct key as [c r]. unfold rowHasKey, rowKey, pairKey. simpl.
  rewrite andb_true_iff, !String.eqb_eq.
  split.
  - intros [-> ->]. reflexivity.
  - intros H. inversion H. auto.
Qed.

(** Whether a desired pair is pushed to [toAddPairs] depends on its key
    only. *)
Lemma notFound_by_key (key : string * string) (current : list ChannelRole.t)
    (p : ChannelRoleInput.t) :
  hasKey key p = true ->
  notFound (matchesInput p) current = negb (existsb (rowHasKey key) current).
Proof.
  intros Hp. apply hasKey_true in Hp.
  destruct (existsb (rowHasKey key) current) eqn:E; simpl.
  - apply existsb_exists in E. destruct E as [cr [Hcr Hk]].
    apply notFound_false. exists cr. split; [exact Hcr|].
    apply matchesInput_key. apply rowHasKey_true in Hk. congruence.
  - apply notFound_true. intros cr Hcr.
    destruct (matchesInput p cr) eqn:Em; [|reflexivity].
    apply matchesInput_key in Em.
    assert (existsb (rowHasKey key) current = true).
    { apply existsb_exists. exists cr. split; [exact Hcr|].
      apply rowHasKey_true. congruence. }
    congruence.
Qed.

Lemma toAddPairs_count (key : string * string) (current : list ChannelRole.t)
    (input : list ChannelRoleInput.t) :
  List.length (filter (hasKey key) (toAddPairs current input)) =
  if existsb (rowHasKey key) current then 0%nat
  else List.length (filter (hasKey key) input).
Proof.
  unfold toAddPairs. induction input as [|p ps IH]; simpl.
  - now destruct (existsb _ current).
  - destruct (hasKey key p) eqn:Hp.
    + rewrite (notFound_by_key key current p Hp).
      destruct (existsb (rowHasKey key) current); simpl.
      * exact IH.
      * rewrite Hp. simpl. now rewrite IH.
    + destruct (notFound (matchesInput p) current); simpl; [rewrite Hp|]; exact IH.
Qed.

(** C2, as the code has it.  The diff does not collapse repetitions of a
    desired pair: a pair that some current association of the user already
    carries gets no creation, however often it is listed, and a pair that
    no current association carries gets one creation for each of its
    occurrences in the input. *)
Theorem saveUserRoles_creations_per_pair ctx (user : User.t)
    (input : list ChannelRoleInput.t) w (key : string * string) :
  List.length (filter (isCreateFor key) (issued w (snd (saveUserRoles ctx user input w)))) =
  if existsb (rowHasKey key) (associationsOf (db w) (User.id user)) then 0%nat
  else List.length (filter (hasKey key) input).
Proof.
  destruct (saveUserRoles_calls ctx user input w) as [k Hcalls].
  rewrite (issued_app _ _ _ Hcalls).
  rewrite filter_app, filter_isCreateFor_deleteCalls, app_nil_r.
  rewrite filter_isCreateFor_createCalls.
  apply toAddPairs_count.
Qed.

(** C10.  The calls of one [saveUserRoles] are the creations of
    [toAddPairs] followed by deletions of rows of [toRemoveChannelRoles],
    and no pair to create is the pair of a row to remove, ids being
    compared up to representation. *)
Theorem saveUserRoles_diff_disjoint ctx (user : User.t) (input : list ChannelRoleInput.t) w :
  let current := associationsOf (db w) (User.id user) in
  let toAdd := toAddPairs current input in
  let toRemove := toRemoveChannelRoles current input in
  (exists k, issued w (snd (saveUserRoles ctx user input w)) =
             createCalls user toAdd ++ deleteCalls (firstn k toRemove)) /\
  (forall p cr, In p toAdd -> In cr toRemove ->
     matchesInput p cr = false /\ inputKey p <> rowKey cr).
Proof.
  cbv zeta. split.
  - destruct (saveUserRoles_calls ctx user input w) as [k Hcalls].
    exists k. now apply issued_app.
  - intros p cr Hp Hcr.
    apply in_toAddPairs in Hp. destruct Hp as [_ Hp].
    apply in_toRemoveChannelRoles in Hcr. destruct Hcr as [Hcr _].
    assert (Hne : inputKey p <> rowKey cr) by (intros E; exact (Hp _ Hcr (eq_sym E))).
    split; [|exact Hne].
    destruct (matchesInput p cr) eqn:E; [|reflexivity].
    apply matchesInput_key in E. congruence.
Qed.

(* ================================================================= *)
(** ** A removal phase on rows with distinct ids *)

Lemma NoDup_app_disjoint {A} (l1 l2 : list A) (a : A) :
  NoDup (l1 ++ l2) -> In a l1 -> In a l2 -> False.
Proof.
  induction l1 as [|x l1 IH]; simpl; intros Hnd H1 H2; [tauto|].
  inversion Hnd as [|? ? Hnotin Hnd']; subst.
  destruct H1 as [->|H1]; [|now apply IH].
  apply Hnotin. apply in_or_app. now right.
Qed.

Lemma first_failure_unique {A} (P : A -> Prop) (pre pre' post post' : list A) (x x' : A) :
  pre ++ x :: post = pre' ++ x' :: post' ->
  Forall P pre -> ~ P x -> Forall P pre' -> ~ P x' ->
  pre = pre' /\ x = x' /\ post = post'.
Proof.
  revert pre'. induction pre as [|a pre IH]; intros [|a' pre'] Heq Hpre Hx Hpre' Hx';
    simpl in Heq; inversion Heq; subst.
  - auto.
  - exfalso. inversion Hpre'; subst. contradiction.
  - exfalso. inversion Hpre; subst. contradiction.
  - inversion Hpre; subst. inversion Hpre'; subst.
    destruct (IH pre' H1 H3 Hx H5 Hx') as (-> & -> & ->). auto.
Qed.

(** With distinct ids, earlier deletions never take away a row that is
    still to be deleted, so a removal phase stops only on a refusal of the
    database. *)
Lemma removeAll_keyed ctx (rows : list ChannelRole.t) w res w' :
  NoDup (rowIds rows) ->
  incl rows (channelRoles (db w)) ->
  removeAll ctx rows w = (res, w') ->
  (res = Ok tt /\
   calls w' = calls w ++ deleteCalls rows /\
   channelRoles (db w') = without (idsOf rows) (channelRoles (db w)) /\
   Forall (removable (db w)) rows)
  \/
  (exists pre cr post m,
     rows = pre ++ cr :: post /\
     res = Err (InternalServerError deletionFailedKey (messageOr m "Unknown error")) /\
     calls w' = calls w ++ deleteCalls (pre ++ [cr]) /\
     channelRoles (db w') = without (idsOf pre) (channelRoles (db w)) /\
     Forall (removable (db w)) pre /\
     removeFailure (db w) (ChannelRole.id cr) = Some m).
Proof.
  intros Hnd Hincl Hrun.
  destruct (removeAll_spec _ _ _ _ _ Hrun) as (_ & _ & Hcases).
  destruct Hcases as [Hok|(pre & cr & post & e & Hsplit & Hres & Hcalls & Hrows & Hrem & Hwhy)].
  - left. exact Hok.
  - right. destruct Hwhy as [[Hnone He]|[m [Hm He]]].
    + exfalso.
      assert (Hin : In cr (channelRoles (db w'))).
      { rewrite Hrows. apply in_without. split.
        - apply Hincl. rewrite Hsplit. apply in_or_app. right. now left.
        - intros i Hi. unfold idsOf in Hi. apply in_map_iff in Hi.
          destruct Hi as [t [<- Ht]].
          apply idsAreEqual_false. intros Heq.
          rewrite Hsplit, rowIds_app in Hnd.
          apply (NoDup_app_disjoint _ _ (toString (ChannelRole.id t)) Hnd).
          + unfold rowIds. now apply (in_map (fun r => toString (ChannelRole.id r))).
          + simpl. left. exact Heq. }
      pose proof (find_none _ _ Hnone _ Hin) as Hfalse. simpl in Hfalse.
      rewrite idsAreEqual_refl in Hfalse. discriminate.
    + exists pre, cr, post, m. subst e. repeat split; assumption.
Qed.

Lemma removeAll_stops ctx (pre post : list ChannelRole.t) (cr : ChannelRole.t)
    (m : option string) w :
  NoDup (rowIds (pre ++ cr :: post)) ->
  incl (pre ++ cr :: post) (channelRoles (db w)) ->
  Forall (removable (db w)) pre ->
  removeFailure (db w) (ChannelRole.id cr) = Some m ->
  exists w',
    removeAll ctx (pre ++ cr :: post) w =
      (Err (InternalServerError deletionFailedKey (messageOr m "Unknown error")), w') /\
    calls w' = calls w ++ deleteCalls (pre ++ [cr]) /\
    channelRoles (db w') = without (idsOf pre) (channelRoles (db w)).
Proof.
  intros Hnd Hincl Hpre Hfail.
  destruct (removeAll ctx (pre ++ cr :: post) w) as [res w'] eqn:Hrun.
  exists w'.
  destruct (removeAll_keyed _ _ _ _ _ Hnd Hincl Hrun)
    as [(_ & _ & _ & Hall)|(pre' & cr' & post' & m' & Hsplit & Hres & Hcalls & Hrows & Hpre' & Hm')].
  - exfalso. rewrite Forall_forall in Hall.
    assert (Hcr : removable (db w) cr) by (apply Hall; apply in_or_app; right; now left).
    unfold removable in Hcr. congruence.
  - assert (Hx : ~ removable (db w) cr) by (unfold removable; congruence).
    assert (Hx' : ~ removable (db w) cr') by (unfold removable; congruence).
    destruct (first_failure_unique _ _ _ _ _ _ _ Hsplit Hpre Hx Hpre' Hx') as (-> & -> & ->).
    assert (m' = m) by congruence. subst m'.
    subst res. auto.
Qed.

Lemma removeAll_completes ctx (rows : list ChannelRole.t) w :
  NoDup (rowIds rows) ->
  incl rows (channelRoles (db w)) ->
  Forall (removable (db w)) rows ->
  exists w',
    removeAll ctx rows w = (Ok tt, w') /\
    calls w' = calls w ++ deleteCalls rows /\
    channelRoles (db w') = without (idsOf rows) (channelRoles (db w)).
Proof.
  intros Hnd Hincl Hall.
  destruct (removeAll ctx rows w) as [res w'] eqn:Hrun.
  exists w'.
  destruct (removeAll_keyed _ _ _ _ _ Hnd Hincl Hrun)
    as [(-> & Hcalls & Hrows & _)|(pre & cr & post & m & Hsplit & _ & _ & _ & _ & Hm)].
  - auto.
  - exfalso. rewrite Forall_forall in Hall.
    assert (Hcr : removable (db w) cr)
      by (apply Hall; rewrite Hsplit; apply in_or_app; right; now left).
    unfold removable in Hcr. congruence.
Qed.

(** The rows to remove, as the removal phase meets them: distinct ids, all
    still in the table after the creations. *)
Lemma toRemove_after_create ctx (user : User.t) (input : list ChannelRoleInput.t) w
    (created : list ChannelRole.t) w1 :
  primaryKeysOk (db w) ->
  createAll ctx user (toAddPairs (associationsOf (db w) (User.id user)) input) w
    = (Ok created, w1) ->
  NoDup (rowIds (toRemoveChannelRoles (associationsOf (db w) (User.id user)) input)) /\
  incl (toRemoveChannelRoles (associationsOf (db w) (User.id user)) input)
       (channelRoles (db w1)) /\
  sameTables (db w) (db w1).
Proof.
  intros [Hnd _] Hcreate.
  destruct (createAll_spec _ _ _ _ _ _ Hcreate) as (_ & Htab & _ & newRows & Hrows1 & _).
  split; [|split; [|exact Htab]].
  - unfold toRemoveChannelRoles, associationsOf.
    now do 2 apply rowIds_filter.
  - intros t Ht. apply in_toRemoveChannelRoles in Ht. destruct Ht as [Ht _].
    apply in_associationsOf in Ht. rewrite Hrows1. apply in_or_app. left. tauto.
Qed.

(* ================================================================= *)
(** ** Failure in the removal phase *)

Lemma messageOr_text (text fallback : string) :
  text <> "" -> messageOr (Some text) fallback = text.
Proof.
  intros H. unfold messageOr. destruct (String.eqb text "") eqn:E; [|reflexivity].
  apply String.eqb_eq in E. contradiction.
Qed.

(** C4, as the code has it.  The creations went through, the rows [pre]
    of the diff are removable and the database refuses to remove the next
    row [cr] with message [m], so that [delete] reports NOT_DELETED with
    [m].  Then [saveUserRoles] throws the internal error
    [error.channel-role-deletion-failed]; the error carries [m] when [m] is
    a non-empty text and the text [Unknown error] when [m] is missing or
    empty.  The deletions issued are those of [pre] and of [cr], none of
    [post]; the rows of [pre] are gone and nothing else was removed. *)
Theorem saveUserRoles_deletion_failure ctx (user : User.t) (input : list ChannelRoleInput.t)
    w (created : list ChannelRole.t) w1 (pre post : list ChannelRole.t)
    (cr : ChannelRole.t) (m : option string) :
  primaryKeysOk (db w) ->
  createAll ctx user (toAddPairs (associationsOf (db w) (User.id user)) input) w
    = (Ok created, w1) ->
  toRemoveChannelRoles (associationsOf (db w) (User.id user)) input = pre ++ cr :: post ->
  Forall (removable (db w)) pre ->
  removeFailure (db w) (ChannelRole.id cr) = Some m ->
  exists w',
    saveUserRoles ctx user input w =
      (Err (InternalServerError deletionFailedKey (messageOr m "Unknown error")), w') /\
    (forall text, m = Some text -> text <> "" -> messageOr m "Unknown error" = text) /\
    (m = None \/ m = Some "" -> messageOr m "Unknown error" = "Unknown error") /\
    issued w1 w' = deleteCalls (pre ++ [cr]) /\
    channelRoles (db w') = without (idsOf pre) (channelRoles (db w1)) /\
    (forall x, In x pre -> ~ In x (channelRoles (db w'))).
Proof.
  intros Hpk Hcreate Hsplit Hpre Hfail.
  destruct (toRemove_after_create _ _ _ _ _ _ Hpk Hcreate) as (Hnd & Hincl & Htab).
  rewrite Hsplit in Hnd, Hincl.
  assert (Hpre1 : Forall (removable (db w1)) pre).
  { eapply Forall_impl; [|exact Hpre]. intros x Hx. unfold removable in *.
    now rewrite (removeFailure_same _ _ _ Htab). }
  assert (Hfail1 : removeFailure (db w1) (ChannelRole.id cr) = Some m)
    by now rewrite (removeFailure_same _ _ _ Htab).
  destruct (removeAll_stops ctx _ _ _ _ _ Hnd Hincl Hpre1 Hfail1) as (w' & Hrun & Hcalls & Hrows).
  exists w'. split.
  { rewrite saveUserRoles_run. cbv zeta. rewrite Hcreate, Hsplit. exact Hrun. }
  split; [intros text -> Htext; now apply messageOr_text|].
  split; [intros [->| ->]; reflexivity|].
  split; [now apply issued_app|].
  split; [exact Hrows|].
  intros x Hx. rewrite Hrows. now apply removed_row.
Qed.

(** C8.  The rows to remove are the user's rows without a desired pair, in
    the insertion order of the table.  After the creations went through,
    the deletions are issued one per row in that order: all of them when
    every row is removable; and when [cr] is the first row the database
    refuses, exactly those of the rows [pre] before it and of [cr] itself,
    the rows of [pre] being gone from the table while [cr] and the rows
    [post] after it are still there. *)
Theorem saveUserRoles_removal_order ctx (user : User.t) (input : list ChannelRoleInput.t)
    w (created : list ChannelRole.t) w1 :
  primaryKeysOk (db w) ->
  createAll ctx user (toAddPairs (associationsOf (db w) (User.id user)) input) w
    = (Ok created, w1) ->
  let toRemove := toRemoveChannelRoles (associationsOf (db w) (User.id user)) input in
  let w' := snd (saveUserRoles ctx user input w) in
  toRemove =
    filter (fun cr => ofUser (User.id user) cr && notFound (matchesRow cr) input)
      (channelRoles (db w)) /\
  (Forall (removable (db w)) toRemove ->
     issued w1 w' = deleteCalls toRemove /\
     forall x, In x toRemove -> ~ In x (channelRoles (db w'))) /\
  (forall pre cr post,
     toRemove = pre ++ cr :: post ->
     Forall (removable (db w)) pre ->
     ~ removable (db w) cr ->
     issued w1 w' = deleteCalls (pre ++ [cr]) /\
     (forall x, In x pre -> ~ In x (channelRoles (db w'))) /\
     (forall x, In x (cr :: post) -> In x (channelRoles (db w')))).
Proof.
  intros Hpk Hcreate. cbv zeta.
  destruct (toRemove_after_create _ _ _ _ _ _ Hpk Hcreate) as (Hnd & Hincl & Htab).
  assert (Hsame : forall rows, Forall (removable (db w)) rows -> Forall (removable (db w1)) rows).
  { intros rows. apply Forall_impl. intros x Hx. unfold removable in *.
    now rewrite (removeFailure_same _ _ _ Htab). }
  rewrite saveUserRoles_run. cbv zeta. rewrite Hcreate.
  split; [|split].
  - unfold toRemoveChannelRoles, associationsOf. now rewrite filter_twice.
  - intros Hall.
    destruct (removeAll_completes ctx _ _ Hnd Hincl (Hsame _ Hall)) as (w' & Hrun & Hcalls & Hrows).
    rewrite Hrun. simpl. split; [now apply issued_app|].
    intros x Hx. rewrite Hrows. now apply removed_row.
  - intros pre cr post Hsplit Hpre Hcr.
    destruct (removeFailure (db w) (ChannelRole.id cr)) as [m|] eqn:Hfail;
      [|exfalso; apply Hcr; exact Hfail].
    rewrite Hsplit in *.
    assert (Hfail1 : removeFailure (db w1) (ChannelRole.id cr) = Some m)
      by now rewrite (removeFailure_same _ _ _ Htab).
    destruct (removeAll_stops ctx _ _ _ _ _ Hnd Hincl (Hsame _ Hpre) Hfail1)
      as (w' & Hrun & Hcalls & Hrows).
    rewrite Hrun. simpl. split; [now apply issued_app|].
    split.
    + intros x Hx. rewrite Hrows. now apply removed_row.
    + intros x Hx. rewrite Hrows. apply in_without. split.
      * apply Hincl. apply in_or_app. now right.
      * intros i Hi. unfold idsOf in Hi. apply in_map_iff in Hi. destruct Hi as [t [<- Ht]].
        apply idsAreEqual_false. intros Heq.
        rewrite rowIds_app in Hnd.
        apply (NoDup_app_disjoint _ _ (toString (ChannelRole.id t)) Hnd).
        -- unfold rowIds. now apply (in_map (fun r => toString (ChannelRole.id r))).
        -- rewrite <- Heq. unfold rowIds.
           now apply (in_map (fun r => toString (ChannelRole.id r))).
Qed.

(* ================================================================= *)
(** ** The store operations *)

(** C5.  [create] fails with NotFound as soon as one of the user, channel
    and role ids does not resolve, and then the tables are as before; when
    the three resolve, it returns a row that references the three loaded
    entities, appended to the junction table, and whose id no earlier row
    has. *)
Theorem create_referential_integrity ctx (input : CreateInput.t) w :
  (findOneById User.id (users (db w)) (CreateInput.userId input) = None \/
   findOneById Channel.id (channels (db w)) (CreateInput.channelId input) = None \/
   findOneById Role.id (roles (db w)) (CreateInput.roleId input) = None ->
   (exists name id, fst (create ctx input w) = Err (EntityNotFoundError name id)) /\
   db (snd (create ctx input w)) = db w) /\
  (forall user channel role,
     findOneById User.id (users (db w)) (CreateInput.userId input) = Some user ->
     findOneById Channel.id (channels (db w)) (CreateInput.channelId input) = Some channel ->
     findOneById Role.id (roles (db w)) (CreateInput.roleId input) = Some role ->
     exists row,
       fst (create ctx input w) = Ok row /\
       ChannelRole.userId row = User.id user /\
       ChannelRole.channelId row = Channel.id channel /\
       ChannelRole.roleId row = Role.id role /\
       channelRoles (db (snd (create ctx input w))) = channelRoles (db w) ++ [row] /\
       (primaryKeysOk (db w) ->
        forall old, In old (channelRoles (db w)) ->
          idsAreEqual (ChannelRole.id old) (ChannelRole.id row) = false)).
Proof.
  split.
  - intros Hmiss. rewrite create_run.
    destruct (findOneById User.id _ _) as [u|];
      [destruct (findOneById Channel.id _ _) as [c|];
       [destruct (findOneById Role.id _ _) as [r|]|]|];
      simpl; eauto.
    destruct Hmiss as [H|[H|H]]; discriminate.
  - intros user channel role Hu Hc Hr. rewrite create_run, Hu, Hc, Hr. cbv zeta.
    eexists. simpl. repeat split.
    intros [_ Hfresh] old Hold. apply idsAreEqual_false. intros Heq.
    apply (Hfresh (nextId (db w))); [lia|].
    cbn [ChannelRole.id] in Heq. rewrite <- Heq. unfold rowIds.
    now apply (in_map (fun r => toString (ChannelRole.id r))).
Qed.

(** C6.  [delete] fails with NotFound when the id does not resolve.  When
    it resolves to a row whose removal throws, the error does not escape:
    the answer is NOT_DELETED with the message of the thrown error, and the
    table is as before.  When the removal goes through, the answer is
    DELETED and the row is gone. *)
Theorem delete_outcomes ctx (id : ID) w :
  (findOneById ChannelRole.id (channelRoles (db w)) id = None ->
   delete ctx id w = (Err (EntityNotFoundError "ChannelRole" id), logged w (CallDelete id))) /\
  (forall channelRole e,
     findOneById ChannelRole.id (channelRoles (db w)) id = Some channelRole ->
     fst (remove ctx channelRole (logged w (CallDelete id))) = Err e ->
     delete ctx id w =
       (Ok (DeletionResponse.mk NOT_DELETED (errorMessage e)), logged w (CallDelete id))) /\
  (forall channelRole,
     findOneById ChannelRole.id (channelRoles (db w)) id = Some channelRole ->
     fst (remove ctx channelRole (logged w (CallDelete id))) = Ok tt ->
     fst (delete ctx id w) = Ok (DeletionResponse.mk DELETED None) /\
     channelRoles (db (snd (delete ctx id w))) =
       without [ChannelRole.id channelRole] (channelRoles (db w)) /\
     ~ In channelRole (channelRoles (db (snd (delete ctx id w))))).
Proof.
  split; [|split].
  - intros Hnone. now rewrite delete_run, Hnone.
  - intros cr e Hfind Hremove. rewrite delete_run, Hfind.
    unfold remove, logged in Hremove. simpl in Hremove.
    destruct (removeFailure (db w) (ChannelRole.id cr)) as [m|]; [|discriminate].
    simpl in Hremove. inversion Hremove; subst. reflexivity.
  - intros cr Hfind Hremove. rewrite delete_run, Hfind.
    unfold remove, logged in Hremove. simpl in Hremove.
    destruct (removeFailure (db w) (ChannelRole.id cr)) as [m|]; [discriminate|].
    simpl. repeat split.
    intros Hin. apply in_without in Hin. destruct Hin as [_ H].
    specialize (H (ChannelRole.id cr) (or_introl eq_refl)).
    rewrite idsAreEqual_refl in H. discriminate.
Qed.

(* ================================================================= *)
(** ** The permission view *)

Lemma toPermissions_loadRelations s (cr : ChannelRole.t) (channel : Channel.t) (role : Role.t) :
  findOneById Channel.id (channels s) (ChannelRole.channelId cr) = Some channel ->
  findOneById Role.id (roles s) (ChannelRole.roleId cr) = Some role ->
  toPermissions (loadRelations s cr) =
  Ok (UserChannelPermissions.mk (Channel.id channel) (Channel.token channel)
        (Channel.code channel) (Role.permissions role)).
Proof.
  intros Hc Hr. unfold toPermissions, loadRelations. simpl. now rewrite Hc, Hr.
Qed.

Lemma mapResult_toPermissions s (rows : list ChannelRole.t) :
  (forall cr, In cr rows ->
     findOneById Channel.id (channels s) (ChannelRole.channelId cr) <> None /\
     findOneById Role.id (roles s) (ChannelRole.roleId cr) <> None) ->
  exists entries,
    mapResult toPermissions (map (loadRelations s) rows) = Ok entries /\
    Forall2 (viewOf s) rows entries.
Proof.
  induction rows as [|cr rest IH]; intros H.
  - exists []. split; [reflexivity | constructor].
  - destruct IH as [entries [Hmap Hall]]; [intros x Hx; apply H; now right|].
    destruct (H cr (or_introl eq_refl)) as [Hc Hr].
    destruct (findOneById Channel.id (channels s) (ChannelRole.channelId cr))
      as [channel|] eqn:Ec; [|contradiction].
    destruct (findOneById Role.id (roles s) (ChannelRole.roleId cr))
      as [role|] eqn:Er; [|contradiction].
    eexists. split.
    + cbn [map mapResult].
      rewrite (toPermissions_loadRelations _ _ _ _ Ec Er), Hmap. reflexivity.
    + constructor; [|exact Hall]. exists channel, role. auto.
Qed.

(** C7.  When the foreign keys of the user's associations resolve,
    [getPermissionsForUser] returns, in the order of the associations, one
    entry for each: the id, token and code of its channel with the
    permissions of its role.  Associations are not merged, so the result is
    as long as the list of associations, and it is empty when the user has
    none.  The tables are not changed. *)
Theorem getPermissionsForUser_view (user : User.t) w :
  relationsResolve (db w) (User.id user) ->
  exists entries,
    getPermissionsForUser user w = (Ok entries, w) /\
    Forall2 (viewOf (db w)) (associationsOf (db w) (User.id user)) entries /\
    List.length entries = List.length (associationsOf (db w) (User.id user)) /\
    (associationsOf (db w) (User.id user) = [] -> entries = []).
Proof.
  intros Hrel.
  destruct (mapResult_toPermissions (db w) (associationsOf (db w) (User.id user)) Hrel)
    as [entries [Hmap Hall]].
  exists entries. split; [|split; [exact Hall|split]].
  - unfold getPermissionsForUser, bind, findByUserWithRelations.
    unfold associationsOf in Hmap. now rewrite Hmap.
  - symmetry. eapply Forall2_length. exact Hall.
  - intros Hnil. rewrite Hnil in Hall. now inversion Hall.
Qed.

(* ================================================================= *)
(** ** The overridden administrator mutations *)

(** C9.  Whatever the request context, the arguments and the world, the
    overridden [createAdministrator] and [updateAdministrator] end in an
    [IllegalOperationError] and leave the world as it was: no table
    changed, no service call recorded, no [Administrator] returned. *)
Theorem overridden_mutations_always_throw
    (CreateArgs UpdateArgs Administrator : Type) ctx
    (createArgs : CreateArgs) (updateArgs : UpdateArgs) w :
  createAdministrator (Administrator := Administrator) ctx createArgs w =
    (Err (IllegalOperationError "error.channel-role-plugin-create-administrator-deprecated"), w) /\
  updateAdministrator (Administrator := Administrator) ctx updateArgs w =
    (Err (IllegalOperationError "error.channel-role-plugin-update-administrator-deprecated"), w) /\
  (forall a : Administrator,
     fst (createAdministrator ctx createArgs w) <> Ok a /\
     fst (updateAdministrator ctx updateArgs w) <> Ok a).
Proof.
  repeat split; unfold createAdministrator, updateAdministrator, throw; simpl; discriminate.
Qed.

(* ================================================================= *)
(** ** The primary-key discipline is an invariant *)

Lemma primaryKeysOk_without s (ids : list ID) :
  primaryKeysOk s ->
  primaryKeysOk (withChannelRoles s (without ids (channelRoles s)) (nextId s)).
Proof.
  intros [Hnd Hfresh]. unfold primaryKeysOk, withChannelRoles. cbn [channelRoles nextId].
  split.
  - unfold without. now apply rowIds_filter.
  - intros n Hn Hin. apply (Hfresh n Hn).
    unfold rowIds in *. apply in_map_iff in Hin. destruct Hin as [cr [Heq Hcr]].
    apply in_without in Hcr. rewrite <- Heq.
    apply (in_map (fun r => toString (ChannelRole.id r))). tauto.
Qed.

Lemma primaryKeysOk_rows s s' :
  channelRoles s' = channelRoles s -> nextId s' = nextId s ->
  primaryKeysOk s -> primaryKeysOk s'.
Proof. unfold primaryKeysOk. intros -> ->. auto. Qed.

(** Whatever its outcome, a reconciliation leaves the junction table with
    distinct ids below the counter. *)
Lemma saveUserRoles_keeps_primaryKeys ctx (user : User.t)
    (input : list ChannelRoleInput.t) w :
  primaryKeysOk (db w) -> primaryKeysOk (db (snd (saveUserRoles ctx user input w))).
Proof.
  intros Hpk. rewrite saveUserRoles_run. cbv zeta.
  destruct (createAll ctx user _ w) as [[created|e] w1] eqn:Ecreate;
    destruct (createAll_spec _ _ _ _ _ _ Ecreate) as (_ & _ & Hpk1 & _);
    specialize (Hpk1 Hpk); [|exact Hpk1].
  destruct (removeAll ctx _ w1) as [res w2] eqn:Eremove.
  destruct (removeAll_spec _ _ _ _ _ Eremove) as (_ & Hnext & Hcases). simpl.
  destruct Hcases as [(_ & _ & Hrows & _)|(pre & bad & post & e & _ & _ & _ & Hrows & _)].
  - eapply primaryKeysOk_rows; [| |apply (primaryKeysOk_without (db w1)); exact Hpk1];
      [exact Hrows | exact Hnext].
  - apply (primaryKeysOk_rows
             (withChannelRoles (db w1) (without (idsOf pre) (channelRoles (db w1))) (nextId (db w1))));
      [exact Hrows | exact Hnext | now apply primaryKeysOk_without].
Qed.

End Properties.

(* ================================================================= *)
(** ** The statements at work on the small installation *)

Lemma saveUserRoles_converges_witness :
  sameSet
    (persistedPairs (db (snd (saveUserRoles tt alice repeatedInput (start freshStore))))
       (User.id alice))
    (map inputKey repeatedInput).
Proof.
  apply (saveUserRoles_converges tt alice repeatedInput (start freshStore)).
  - apply primaryKeysOkb_sound. reflexivity.
  - vm_compute. reflexivity.
Defined.

Lemma saveUserRoles_idempotent_witness :
  let w' := snd (saveUserRoles tt alice [pair 1 99] (start (assignedStore []))) in
  toAddPairs (associationsOf (db w') (User.id alice)) [pair 1 99] = [] /\
  toRemoveChannelRoles (associationsOf (db w') (User.id alice)) [pair 1 99] = [] /\
  saveUserRoles tt alice [pair 1 99] w' = (Ok tt, w') /\
  issued w' (snd (saveUserRoles tt alice [pair 1 99] w')) = [].
Proof.
  apply (saveUserRoles_idempotent tt alice [pair 1 99] (start (assignedStore []))).
  - apply primaryKeysOkb_sound. reflexivity.
  - vm_compute. reflexivity.
Defined.

(** The desired list [(1, 10); (1, 10)] for a user without associations:
    [create] is called twice for the pair (1, 10).  So it is not true that
    at most one creation is issued for a pair. *)
Lemma saveUserRoles_repeated_pair_created_twice :
  ~ (forall (user : User.t) (input : list ChannelRoleInput.t) (w : World)
            (key : string * string),
       primaryKeysOk (db w) ->
       (List.length
          (filter (isCreateFor key) (issued w (snd (saveUserRoles tt user input w)))) <= 1)%nat).
Proof.
  intros H.
  specialize (H alice [pair 1 10; pair 1 10] (start freshStore) (inputKey (pair 1 10))
                (primaryKeysOkb_sound freshStore eq_refl)).
  vm_compute in H. lia.
Qed.

Lemma saveUserRoles_diff_disjoint_witness :
  (exists k,
     issued (start (assignedStore []))
       (snd (saveUserRoles tt alice [pair 1 99] (start (assignedStore [])))) =
     createCalls alice [pair 1 99] ++ deleteCalls (firstn k [row1; row2])) /\
  matchesInput (pair 1 99) row1 = false /\ inputKey (pair 1 99) <> rowKey row1.
Proof.
  destruct (saveUserRoles_diff_disjoint tt alice [pair 1 99] (start (assignedStore [])))
    as [Hcalls Hdisjoint].
  split; [exact Hcalls|].
  apply Hdisjoint; vm_compute; left; reflexivity.
Defined.

(** The database refuses to remove the first row with an empty message:
    [delete] reports NOT_DELETED with that message, and the error of
    [saveUserRoles] carries [Unknown error] instead. *)
Lemma saveUserRoles_empty_message_not_carried :
  ~ (forall (user : User.t) (input : list ChannelRoleInput.t) (w w1 : World)
            (created pre post : list ChannelRole.t) (cr : ChannelRole.t) (text : string),
       primaryKeysOk (db w) ->
       createAll tt user (toAddPairs (associationsOf (db w) (User.id user)) input) w
         = (Ok created, w1) ->
       toRemoveChannelRoles (associationsOf (db w) (User.id user)) input = pre ++ cr :: post ->
       Forall (removable (db w)) pre ->
       removeFailure (db w) (ChannelRole.id cr) = Some (Some text) ->
       fst (saveUserRoles tt user input w) = Err (InternalServerError deletionFailedKey text)).
Proof.
  intros H.
  specialize (H alice [] (start (assignedStore [(IdNum 1, Some "")]))
                (start (assignedStore [(IdNum 1, Some "")]))
                [] [] [row2] row1 ""
                (primaryKeysOkb_sound (assignedStore [(IdNum 1, Some "")]) eq_refl)
                eq_refl eq_refl (Forall_nil _) eq_refl).
  vm_compute in H. discriminate.
Qed.

Lemma saveUserRoles_deletion_failure_witness :
  exists w',
    saveUserRoles tt alice [] (start (assignedStore [(IdNum 2, Some "row is referenced")])) =
      (Err (InternalServerError deletionFailedKey
              (messageOr (Some "row is referenced") "Unknown error")), w') /\
    (forall text, Some "row is referenced" = Some text -> text <> "" ->
       messageOr (Some "row is referenced") "Unknown error" = text) /\
    (Some "row is referenced" = None \/ Some "row is referenced" = Some "" ->
       messageOr (Some "row is referenced") "Unknown error" = "Unknown error") /\
    issued (start (assignedStore [(IdNum 2, Some "row is referenced")])) w' =
      deleteCalls ([row1] ++ [row2]) /\
    channelRoles (db w') =
      without (idsOf [row1])
        (channelRoles (assignedStore [(IdNum 2, Some "row is referenced")])) /\
    (forall x, In x [row1] -> ~ In x (channelRoles (db w'))).
Proof.
  apply (saveUserRoles_deletion_failure tt alice []
           (start (assignedStore [(IdNum 2, Some "row is referenced")]))
           [] (start (assignedStore [(IdNum 2, Some "row is referenced")]))
           [row1] [] row2 (Some "row is referenced")).
  - apply primaryKeysOkb_sound. reflexivity.
  - reflexivity.
  - reflexivity.
  - repeat constructor.
  - reflexivity.
Defined.

Lemma saveUserRoles_removal_order_witness :
  let w := start (assignedStore [(IdNum 2, None)]) in
  let w' := snd (saveUserRoles tt alice [] w) in
  issued w w' = deleteCalls ([row1] ++ [row2]) /\
  (forall x, In x [row1] -> ~ In x (channelRoles (db w'))) /\
  (forall x, In x [row2] -> In x (channelRoles (db w'))).
Proof.
  cbv zeta.
  destruct (saveUserRoles_removal_order tt alice []
              (start (assignedStore [(IdNum 2, None)]))
              [] (start (assignedStore [(IdNum 2, None)])))
    as (_ & _ & Hstop).
  - apply primaryKeysOkb_sound. reflexivity.
  - reflexivity.
  - apply (Hstop [row1] row2 []).
    + reflexivity.
    + repeat constructor.
    + vm_compute. discriminate.
Defined.

Lemma create_referential_integrity_witness :
  ((exists name id,
      fst (create tt (CreateInput.mk (IdNum 42) (IdStr "999") (IdNum 10)) (start freshStore)) =
      Err (EntityNotFoundError name id)) /\
   db (snd (create tt (CreateInput.mk (IdNum 42) (IdStr "999") (IdNum 10)) (start freshStore)))
     = freshStore) /\
  (exists row,
     fst (create tt (CreateInput.mk (IdStr "42") (IdStr "1") (IdStr "10")) (start freshStore))
       = Ok row /\
     ChannelRole.userId row = User.id alice /\
     ChannelRole.channelId row = Channel.id channel1 /\
     ChannelRole.roleId row = Role.id role10).
Proof.
  split.
  - apply (create_referential_integrity tt
             (CreateInput.mk (IdNum 42) (IdStr "999") (IdNum 10)) (start freshStore)).
    right. left. reflexivity.
  - destruct (create_referential_integrity tt
                (CreateInput.mk (IdStr "42") (IdStr "1") (IdStr "10")) (start freshStore))
      as [_ Hok].
    destruct (Hok alice channel1 role10 eq_refl eq_refl eq_refl)
      as (row & Hrow & Hu & Hc & Hr & _).
    exists row. auto.
Defined.

Lemma delete_outcomes_witness :
  delete tt (IdStr "7") (start (assignedStore [])) =
    (Err (EntityNotFoundError "ChannelRole" (IdStr "7")),
     logged (start (assignedStore [])) (CallDelete (IdStr "7"))) /\
  delete tt (IdStr "2") (start (assignedStore [(IdNum 2, Some "row is referenced")])) =
    (Ok (DeletionResponse.mk NOT_DELETED (Some "row is referenced")),
     logged (start (assignedStore [(IdNum 2, Some "row is referenced")])) (CallDelete (IdStr "2"))) /\
  fst (delete tt (IdNum 1) (start (assignedStore []))) = Ok (DeletionResponse.mk DELETED None).
Proof.
  split; [|split].
  - apply (delete_outcomes tt (IdStr "7") (start (assignedStore []))). reflexivity.
  - apply (proj1 (proj2 (delete_outcomes tt (IdStr "2")
                           (start (assignedStore [(IdNum 2, Some "row is referenced")]))))
             row2 (QueryFailedError (Some "row is referenced"))); reflexivity.
  - apply (proj2 (proj2 (delete_outcomes tt (IdNum 1) (start (assignedStore []))))
             row1); reflexivity.
Defined.

Lemma getPermissionsForUser_view_witness :
  exists entries,
    getPermissionsForUser alice (start twoRolesStore) = (Ok entries, start twoRolesStore) /\
    Forall2 (viewOf twoRolesStore) (associationsOf twoRolesStore (User.id alice)) entries /\
    List.length entries = 2%nat /\
    (associationsOf twoRolesStore (User.id alice) = [] -> entries = []).
Proof.
  apply (getPermissionsForUser_view alice (start twoRolesStore)).
  intros cr Hcr. vm_compute in Hcr.
  destruct Hcr as [<-|[<-|[]]]; split; vm_compute; discriminate.
Defined.

(** Two roles in one channel give two entries for that channel. *)
Example getPermissionsForUser_two_roles_one_channel :
  getPermissionsForUser alice (start twoRolesStore) =
  (Ok [UserChannelPermissions.mk (IdNum 1) "token-1" "channel-1" ["ReadCatalog"; "UpdateCatalog"];
       UserChannelPermissions.mk (IdNum 1) "token-1" "channel-1" ["ReadOrder"; "UpdateOrder"]],
   start twoRolesStore).
Proof. reflexivity. Qed.

(** The scenarios of the specification. *)
Example scenario_two_creations :
  let w' := snd (saveUserRoles tt alice [pair 1 10; pair 2 20] (start freshStore)) in
  fst (saveUserRoles tt alice [pair 1 10; pair 2 20] (start freshStore)) = Ok tt /\
  calls w' = createCalls alice [pair 1 10; pair 2 20] /\
  channelRoles (db w') = [row1; row2].
Proof. vm_compute. auto. Qed.

Example scenario_one_creation_two_deletions :
  let w' := snd (saveUserRoles tt alice [pair 1 99] (start (assignedStore []))) in
  fst (saveUserRoles tt alice [pair 1 99] (start (assignedStore []))) = Ok tt /\
  calls w' = createCalls alice [pair 1 99] ++ deleteCalls [row1; row2] /\
  persistedPairs (db w') (User.id alice) = [inputKey (pair 1 99)].
Proof. vm_compute. auto. Qed.

Example scenario_unknown_channel :
  let input := [ChannelRoleInput.mk (IdStr "999") (IdNum 10); pair 1 10] in
  let w' := snd (saveUserRoles tt alice input (start freshStore)) in
  fst (saveUserRoles tt alice input (start freshStore)) =
    Err (EntityNotFoundError "Channel" (IdStr "999")) /\
  channelRoles (db w') = [row1].
Proof. vm_compute. auto. Qed.

(* ================================================================= *)
(** * Further properties of the service and of the strategy *)

Section MoreProperties.

Context {RequestContext : Type}.
Implicit Types (ctx : RequestContext) (w : World) (s : Store).

(* ================================================================= *)
(** ** update *)

Lemma update_run ctx (input : UpdateInput.t) w :
  update ctx input w =
  match findOneById ChannelRole.id (channelRoles (db w)) (UpdateInput.id input),
        findOneById User.id (users (db w)) (UpdateInput.userId input),
        findOneById Channel.id (channels (db w)) (UpdateInput.channelId input),
        findOneById Role.id (roles (db w)) (UpdateInput.roleId input) with
  | Some channelRole, Some user, Some channel, Some role =>
      saveLoaded ctx (repoint channelRole user channel role) w
  | None, _, _, _ =>
      (Err (EntityNotFoundError "ChannelRole" (UpdateInput.id input)), w)
  | Some _, None, _, _ =>
      (Err (EntityNotFoundError "User" (UpdateInput.userId input)), w)
  | Some _, Some _, None, _ =>
      (Err (EntityNotFoundError "Channel" (UpdateInput.channelId input)), w)
  | Some _, Some _, Some _, None =>
      (Err (EntityNotFoundError "Role" (UpdateInput.roleId input)), w)
  end.
Proof.
  unfold update, bind, promiseAll4, joint, getEntityOrThrow. simpl.
  destruct (findOneById ChannelRole.id _ _), (findOneById User.id _ _),
    (findOneById Channel.id _ _), (findOneById Role.id _ _); reflexivity.
Qed.

Lemma found_exists (rows : list ChannelRole.t) (id : ID) (cr : ChannelRole.t) :
  findOneById ChannelRole.id rows id = Some cr ->
  existsb (fun x => idsAreEqual (ChannelRole.id x) (ChannelRole.id cr)) rows = true.
Proof.
  intros H. apply find_some in H. destruct H as [Hin _].
  apply existsb_exists. exists cr. split; [exact Hin | apply idsAreEqual_refl].
Qed.

Lemma saveLoaded_found ctx (rows_id : ID) (cr entity : ChannelRole.t) w :
  findOneById ChannelRole.id (channelRoles (db w)) rows_id = Some cr ->
  ChannelRole.id entity = ChannelRole.id cr ->
  saveLoaded ctx entity w =
  (Ok entity,
   mkWorld (withChannelRoles (db w) (overwrite entity (channelRoles (db w))) (nextId (db w)))
     (calls w)).
Proof.
  intros Hfind Hid. unfold saveLoaded. cbv zeta.
  rewrite Hid, (found_exists _ _ _ Hfind). reflexivity.
Qed.

Lemma rowIds_overwrite (entity : ChannelRole.t) (rows : list ChannelRole.t) :
  rowIds (overwrite entity rows) = rowIds rows.
Proof.
  unfold rowIds, overwrite. rewrite map_map. apply map_ext. intros cr.
  destruct (idsAreEqual (ChannelRole.id cr) (ChannelRole.id entity)) eqn:E; [|reflexivity].
  apply idsAreEqual_true in E. now rewrite E.
Qed.

(** X1.  [update] fails with NotFound as soon as the association, the
    user, the channel or the role does not resolve, and then nothing at all
    has changed. *)
Theorem update_not_found ctx (input : UpdateInput.t) w :
  findOneById ChannelRole.id (channelRoles (db w)) (UpdateInput.id input) = None \/
  findOneById User.id (users (db w)) (UpdateInput.userId input) = None \/
  findOneById Channel.id (channels (db w)) (UpdateInput.channelId input) = None \/
  findOneById Role.id (roles (db w)) (UpdateInput.roleId input) = None ->
  (exists name id, fst (update ctx input w) = Err (EntityNotFoundError name id)) /\
  snd (update ctx input w) = w.
Proof.
  intros Hmiss. rewrite update_run.
  destruct (findOneById ChannelRole.id _ _) as [cr|];
    [destruct (findOneById User.id _ _) as [u|];
     [destruct (findOneById Channel.id _ _) as [c|];
      [destruct (findOneById Role.id _ _) as [r|]|]|]|];
    simpl; eauto.
  destruct Hmiss as [H|[H|[H|H]]]; discriminate.
Qed.

(** X2.  When the four ids resolve, [update] returns the association with
    its own id and the ids of the three loaded entities in place of all
    three references, writes it over the rows of that id and changes
    nothing else: the other rows, the order and the ids of the table, the
    counter and the other tables are as before, and no creation or deletion
    is recorded. *)
Theorem update_replaces ctx (input : UpdateInput.t) w
    (channelRole : ChannelRole.t) (user : User.t) (channel : Channel.t) (role : Role.t) :
  findOneById ChannelRole.id (channelRoles (db w)) (UpdateInput.id input) = Some channelRole ->
  findOneById User.id (users (db w)) (UpdateInput.userId input) = Some user ->
  findOneById Channel.id (channels (db w)) (UpdateInput.channelId input) = Some channel ->
  findOneById Role.id (roles (db w)) (UpdateInput.roleId input) = Some role ->
  let row := ChannelRole.mk (ChannelRole.id channelRole) (User.id user) (Channel.id channel)
               (Role.id role) in
  let w' := snd (update ctx input w) in
  fst (update ctx input w) = Ok row /\
  channelRoles (db w') =
    map (fun cr => if idsAreEqual (ChannelRole.id cr) (UpdateInput.id input) then row else cr)
      (channelRoles (db w)) /\
  rowIds (channelRoles (db w')) = rowIds (channelRoles (db w)) /\
  nextId (db w') = nextId (db w) /\
  sameTables (db w) (db w') /\
  calls w' = calls w.
Proof.
  intros Hcr Hu Hc Hr. cbv zeta.
  rewrite update_run, Hcr, Hu, Hc, Hr.
  rewrite (saveLoaded_found ctx _ channelRole) by (exact Hcr || reflexivity).
  simpl. split; [reflexivity|].
  assert (Hsame : idsAreEqual (ChannelRole.id channelRole) (UpdateInput.id input) = true)
    by (apply find_some in Hcr; tauto).
  split.
  { unfold overwrite, repoint. apply map_ext. intros cr. simpl.
    rewrite (idsAreEqual_sym _ (ChannelRole.id channelRole)),
            (idsAreEqual_congr _ _ _ Hsame), (idsAreEqual_sym (UpdateInput.id input)).
    reflexivity. }
  split; [apply rowIds_overwrite|].
  repeat split.
Qed.

(** X3.  Whatever its outcome, [update] leaves the junction table with
    pairwise distinct ids below the counter. *)
Theorem update_keeps_primaryKeys ctx (input : UpdateInput.t) w :
  primaryKeysOk (db w) -> primaryKeysOk (db (snd (update ctx input w))).
Proof.
  intros Hpk. rewrite update_run.
  destruct (findOneById ChannelRole.id _ _) as [cr|] eqn:Hcr; [|exact Hpk].
  destruct (findOneById User.id _ _) as [u|]; [|exact Hpk].
  destruct (findOneById Channel.id _ _) as [c|]; [|exact Hpk].
  destruct (findOneById Role.id _ _) as [r|]; [|exact Hpk].
  rewrite (saveLoaded_found ctx _ cr) by (exact Hcr || reflexivity).
  unfold primaryKeysOk in *. simpl. now rewrite rowIds_overwrite.
Qed.

Lemma find_overwrite (entity : ChannelRole.t) (id : ID) (rows : list ChannelRole.t) :
  idsAreEqual (ChannelRole.id entity) id = true ->
  findOneById ChannelRole.id (overwrite entity rows) id =
  option_map (fun _ => entity) (findOneById ChannelRole.id rows id).
Proof.
  intros Hsame. unfold findOneById, overwrite.
  induction rows as [|cr rest IH]; [reflexivity|].
  cbn [map find].
  destruct (idsAreEqual (ChannelRole.id cr) (ChannelRole.id entity)) eqn:E.
  - rewrite Hsame. rewrite (idsAreEqual_congr _ _ _ E), Hsame. reflexivity.
  - assert (Hne : idsAreEqual (ChannelRole.id cr) id = false).
    { rewrite idsAreEqual_sym, <- (idsAreEqual_congr _ _ _ Hsame), idsAreEqual_sym.
      exact E. }
    rewrite Hne. exact IH.
Qed.

Lemma update_ok_inv ctx (input : UpdateInput.t) w (row : ChannelRole.t) w' :
  update ctx input w = (Ok row, w') ->
  exists cr u c r,
    findOneById ChannelRole.id (channelRoles (db w)) (UpdateInput.id input) = Some cr /\
    findOneById User.id (users (db w)) (UpdateInput.userId input) = Some u /\
    findOneById Channel.id (channels (db w)) (UpdateInput.channelId input) = Some c /\
    findOneById Role.id (roles (db w)) (UpdateInput.roleId input) = Some r /\
    row = repoint cr u c r /\
    w' = mkWorld (withChannelRoles (db w) (overwrite row (channelRoles (db w))) (nextId (db w)))
           (calls w).
Proof.
  rewrite update_run.
  destruct (findOneById ChannelRole.id _ _) as [cr|] eqn:Hcr; [|discriminate].
  destruct (findOneById User.id _ _) as [u|]; [|discriminate].
  destruct (findOneById Channel.id _ _) as [c|]; [|discriminate].
  destruct (findOneById Role.id _ _) as [r|]; [|discriminate].
  rewrite (saveLoaded_found ctx _ cr) by (exact Hcr || reflexivity).
  intros H. inversion H; subst; clear H.
  exists cr, u, c, r. repeat split.
Qed.

Lemma lookup_after_update (input_id : ID) (rows : list ChannelRole.t)
    (cr : ChannelRole.t) (u : User.t) (c : Channel.t) (r : Role.t) :
  findOneById ChannelRole.id rows input_id = Some cr ->
  findOneById ChannelRole.id (overwrite (repoint cr u c r) rows) input_id
    = Some (repoint cr u c r).
Proof.
  intros Hcr. rewrite find_overwrite, Hcr; [reflexivity|].
  simpl. apply find_some in Hcr. tauto.
Qed.

(** X4.  Looking an association up by the id that was just updated gives
    the row [update] returned. *)
Theorem update_then_lookup ctx (input : UpdateInput.t) w (row : ChannelRole.t) w' :
  update ctx input w = (Ok row, w') ->
  getEntityOrThrow ctx "ChannelRole" channelRoles ChannelRole.id (UpdateInput.id input) w'
    = (Ok row, w').
Proof.
  intros Hup.
  destruct (update_ok_inv _ _ _ _ _ Hup) as (cr & u & c & r & Hcr & _ & _ & _ & -> & ->).
  unfold getEntityOrThrow. simpl.
  now rewrite (lookup_after_update _ _ _ _ _ _ Hcr).
Qed.

Lemma overwrite_same (entity : ChannelRole.t) (rows : list ChannelRole.t) :
  overwrite entity (overwrite entity rows) = overwrite entity rows.
Proof.
  unfold overwrite. rewrite map_map. apply map_ext. intros cr.
  destruct (idsAreEqual (ChannelRole.id cr) (ChannelRole.id entity)) eqn:E.
  - now rewrite idsAreEqual_refl.
  - now rewrite E.
Qed.

(** X5.  [update] is idempotent: the same update applied to the world it
    produced returns the same row and leaves that world as it is. *)
Theorem update_idempotent ctx (input : UpdateInput.t) w (row : ChannelRole.t) w' :
  update ctx input w = (Ok row, w') ->
  update ctx input w' = (Ok row, w').
Proof.
  intros Hup.
  destruct (update_ok_inv _ _ _ _ _ Hup) as (cr & u & c & r & Hcr & Hu & Hc & Hr & -> & ->).
  pose proof (lookup_after_update _ _ _ u c r Hcr) as Hfound.
  rewrite update_run. simpl. rewrite Hfound, Hu, Hc, Hr.
  change (repoint (repoint cr u c r) u c r) with (repoint cr u c r).
  rewrite (saveLoaded_found ctx (UpdateInput.id input) (repoint cr u c r))
    by (exact Hfound || reflexivity).
  simpl. now rewrite overwrite_same.
Qed.

(* ================================================================= *)
(** ** create and delete, one after the other *)

Lemma find_without_self (rows : list ChannelRole.t) (id : ID) (cr : ChannelRole.t) :
  idsAreEqual (ChannelRole.id cr) id = true ->
  findOneById ChannelRole.id (without [ChannelRole.id cr] rows) id = None.
Proof.
  intros Hsame. unfold findOneById.
  destruct (find _ (without _ rows)) as [x|] eqn:E; [|reflexivity].
  exfalso. apply find_some in E. destruct E as [Hin Hx].
  apply in_without in Hin. destruct Hin as [_ Hne].
  specialize (Hne (ChannelRole.id cr) (or_introl eq_refl)).
  rewrite (idsAreEqual_sym _ (ChannelRole.id cr)), (idsAreEqual_congr _ _ _ Hsame),
          idsAreEqual_sym in Hne.
  congruence.
Qed.

(** X6.  Once [delete] has answered DELETED for an id, that id no longer
    resolves: a second [delete] of it fails with NotFound, and removes
    nothing. *)
Theorem delete_twice_not_found ctx (id : ID) w (response : DeletionResponse.t) w1 :
  delete ctx id w = (Ok response, w1) ->
  DeletionResponse.result response = DELETED ->
  delete ctx id w1 = (Err (EntityNotFoundError "ChannelRole" id), logged w1 (CallDelete id)) /\
  channelRoles (db (snd (delete ctx id w1))) = channelRoles (db w1).
Proof.
  rewrite delete_run.
  destruct (findOneById ChannelRole.id (channelRoles (db w)) id) as [cr|] eqn:Hcr;
    [|discriminate].
  destruct (removeFailure (db w) (ChannelRole.id cr)) as [m|].
  - intros H Hres. inversion H; subst. discriminate.
  - intros H _. inversion H; subst; clear H.
    assert (Hnone : findOneById ChannelRole.id
                      (without [ChannelRole.id cr] (channelRoles (db w))) id = None).
    { apply find_without_self. apply find_some in Hcr. tauto. }
    rewrite delete_run. simpl. rewrite Hnone. split; reflexivity.
Qed.

Lemma fresh_row_unmatched s (n : N) (rows : list ChannelRole.t) :
  (forall k, (n <= k)%N -> ~ In (toString (IdNum k)) (rowIds rows)) ->
  forall cr, In cr rows -> idsAreEqual (ChannelRole.id cr) (IdNum n) = false.
Proof.
  intros Hfresh cr Hcr. apply idsAreEqual_false. intros Heq.
  apply (Hfresh n); [lia|]. rewrite <- Heq.
  unfold rowIds. now apply (in_map (fun r => toString (ChannelRole.id r))).
Qed.

Lemma filter_all {A} (keep : A -> bool) (xs : list A) :
  (forall x, In x xs -> keep x = true) -> filter keep xs = xs.
Proof.
  induction xs as [|x xs IH]; simpl; intros H; [reflexivity|].
  rewrite (H x) by now left. f_equal. apply IH. intros y Hy. apply H. now right.
Qed.

Lemma find_appended (rows : list ChannelRole.t) (row : ChannelRole.t) :
  (forall cr, In cr rows -> idsAreEqual (ChannelRole.id cr) (ChannelRole.id row) = false) ->
  findOneById ChannelRole.id (rows ++ [row]) (ChannelRole.id row) = Some row.
Proof.
  unfold findOneById. induction rows as [|x xs IH]; simpl; intros Hold.
  - now rewrite idsAreEqual_refl.
  - rewrite (Hold x) by now left. apply IH. intros cr Hcr. apply Hold. now right.
Qed.

(** X7.  Deleting the association that [create] just returned undoes the
    creation: the junction table holds the rows it held before, in the same
    order, provided the database accepts the removal. *)
Theorem create_then_delete_restores ctx (input : CreateInput.t) w (row : ChannelRole.t) w1 :
  primaryKeysOk (db w) ->
  create ctx input w = (Ok row, w1) ->
  removeFailure (db w) (ChannelRole.id row) = None ->
  fst (delete ctx (ChannelRole.id row) w1) = Ok (DeletionResponse.mk DELETED None) /\
  channelRoles (db (snd (delete ctx (ChannelRole.id row) w1))) = channelRoles (db w).
Proof.
  intros [_ Hfresh] Hcreate Hrem.
  apply create_ok_inv in Hcreate. destruct Hcreate as (Hid & _ & _ & _ & ->).
  pose proof (fresh_row_unmatched (db w) _ _ Hfresh) as Hold.
  assert (Hfind : findOneById ChannelRole.id (channelRoles (db w) ++ [row]) (ChannelRole.id row)
                  = Some row).
  { apply find_appended. intros cr Hcr. rewrite Hid. now apply Hold. }
  rewrite delete_run. simpl. rewrite Hfind.
  change (removeFailure _ (ChannelRole.id row)) with (removeFailure (db w) (ChannelRole.id row)).
  rewrite Hrem. simpl. split; [reflexivity|].
  unfold without. rewrite filter_app. simpl.
  rewrite idsAreEqual_refl. simpl. rewrite app_nil_r.
  apply filter_all. intros x Hx. rewrite orb_false_r, Hid, (Hold x Hx). reflexivity.
Qed.
(* ================================================================= *)
(** ** What saveUserRoles leaves alone *)

(** The table after a reconciliation, whatever its outcome: the rows
    created are appended, and the rows deleted are a prefix of the diff. *)
Lemma saveUserRoles_table ctx (user : User.t) (input : list ChannelRoleInput.t) w :
  let current := associationsOf (db w) (User.id user) in
  exists newRows k,
    channelRoles (db (snd (saveUserRoles ctx user input w))) =
      without (idsOf (firstn k (toRemoveChannelRoles current input)))
        (channelRoles (db w) ++ newRows) /\
    Forall (createdFor user (toAddPairs current input)) newRows /\
    sameTables (db w) (db (snd (saveUserRoles ctx user input w))) /\
    (primaryKeysOk (db w) -> NoDup (rowIds (channelRoles (db w) ++ newRows))).
Proof.
  cbv zeta. rewrite saveUserRoles_run. cbv zeta.
  set (current := associationsOf (db w) (User.id user)).
  destruct (createAll ctx user (toAddPairs current input) w) as [[created|e] w1] eqn:Ecreate;
    destruct (createAll_spec _ _ _ _ _ _ Ecreate) as (_ & Htab & Hpk1 & newRows & Hrows1 & Hnew & _);
    exists newRows.
  - destruct (removeAll ctx (toRemoveChannelRoles current input) w1) as [res w2] eqn:Eremove.
    destruct (removeAll_spec _ _ _ _ _ Eremove) as (Htab2 & _ & Hcases). simpl.
    assert (Hnd : primaryKeysOk (db w) -> NoDup (rowIds (channelRoles (db w) ++ newRows))).
    { intros Hpk. rewrite <- Hrows1. now apply Hpk1. }
    destruct Hcases as [(_ & _ & Hrows2 & _)|(pre & bad & post & e & Hsplit & _ & _ & Hrows2 & _)].
    + exists (List.length (toRemoveChannelRoles current input)).
      rewrite firstn_all, Hrows2, Hrows1.
      split; [reflexivity|]. split; [exact Hnew|].
      split; [eapply sameTables_trans; eauto | exact Hnd].
    + exists (List.length pre).
      rewrite Hsplit, firstn_length_app, Hrows2, Hrows1.
      split; [reflexivity|]. split; [exact Hnew|].
      split; [eapply sameTables_trans; eauto | exact Hnd].
  - exists 0%nat. simpl. rewrite without_nil, Hrows1.
    split; [reflexivity|]. split; [exact Hnew|]. split; [exact Htab|].
    intros Hpk. rewrite <- Hrows1. now apply Hpk1.
Qed.

Lemma firstn_incl {A} (k : nat) (l : list A) : incl (firstn k l) l.
Proof.
  unfold incl. revert k. induction l as [|a l IH]; intros [|k]; simpl; intros x Hx; try tauto.
  destruct Hx as [->|Hx]; [now left | right; now apply (IH k)].
Qed.

Lemma ofUser_other (user other : ID) (cr : ChannelRole.t) :
  idsAreEqual other user = false -> ofUser user cr = true -> ofUser other cr = false.
Proof.
  unfold ofUser. intros Hne Hu.
  rewrite (idsAreEqual_congr _ _ _ Hu), idsAreEqual_sym. exact Hne.
Qed.

(** X8.  [saveUserRoles] for one user leaves the associations of every
    other user exactly as they were, whether it succeeds or fails. *)
Theorem saveUserRoles_other_users_untouched ctx (user : User.t)
    (input : list ChannelRoleInput.t) w (other : ID) :
  primaryKeysOk (db w) ->
  idsAreEqual other (User.id user) = false ->
  associationsOf (db (snd (saveUserRoles ctx user input w))) other =
  associationsOf (db w) other.
Proof.
  intros Hpk Hother.
  destruct (saveUserRoles_table ctx user input w) as (newRows & k & Hrows & Hnew & _ & _).
  cbv zeta in Hrows, Hnew.
  unfold associationsOf at 1. rewrite Hrows. unfold without.
  rewrite filter_twice, filter_app.
  rewrite (filter_none _ newRows).
  - rewrite app_nil_r. apply filter_ext_in. intros x Hx.
    destruct (ofUser other x) eqn:Hox; [|apply andb_false_r].
    rewrite andb_true_r. apply negb_true_iff.
    destruct (existsb _ _) eqn:E; [|reflexivity]. exfalso.
    apply existsb_exists in E. destruct E as [i [Hi Hsame]].
    unfold idsOf in Hi. apply in_map_iff in Hi. destruct Hi as [t [<- Ht]].
    apply firstn_incl in Ht. apply in_toRemoveChannelRoles in Ht. destruct Ht as [Ht _].
    apply in_associationsOf in Ht. destruct Ht as [Ht Hut].
    destruct Hpk as [Hnd _]. apply idsAreEqual_true in Hsame.
    assert (x = t) by (apply (row_of_id (channelRoles (db w))); auto). subst x.
    rewrite (ofUser_other _ _ _ Hother Hut) in Hox. discriminate.
  - intros x Hx. rewrite Forall_forall in Hnew. destruct (Hnew _ Hx) as [Hu _].
    rewrite (ofUser_other _ _ _ Hother Hu). apply andb_false_r.
Qed.

(** X9.  [saveUserRoles] never writes to the user, channel and role
    tables, whatever its input and its outcome. *)
Theorem saveUserRoles_reference_tables_untouched ctx (user : User.t)
    (input : list ChannelRoleInput.t) w :
  users (db (snd (saveUserRoles ctx user input w))) = users (db w) /\
  channels (db (snd (saveUserRoles ctx user input w))) = channels (db w) /\
  roles (db (snd (saveUserRoles ctx user input w))) = roles (db w).
Proof.
  destruct (saveUserRoles_table ctx user input w) as (newRows & k & _ & _ & Htab & _).
  destruct Htab as (Hu & Hc & Hr & _). auto.
Qed.

(** X10.  A row that is not in [toRemoveChannelRoles] is never removed: an
    association of another user, or one of this user whose pair is
    desired, is still in the table after [saveUserRoles], whether it
    succeeds or fails. *)
Theorem saveUserRoles_removes_only_diff ctx (user : User.t)
    (input : list ChannelRoleInput.t) w (cr : ChannelRole.t) :
  primaryKeysOk (db w) ->
  In cr (channelRoles (db w)) ->
  ~ In cr (toRemoveChannelRoles (associationsOf (db w) (User.id user)) input) ->
  In cr (channelRoles (db (snd (saveUserRoles ctx user input w)))).
Proof.
  intros Hpk Hin Hnot.
  destruct (saveUserRoles_table ctx user input w) as (newRows & k & Hrows & _ & _ & Hnd).
  cbv zeta in Hrows. rewrite Hrows.
  apply kept_row.
  - now apply Hnd.
  - intros t Ht. apply firstn_incl in Ht. apply in_toRemoveChannelRoles in Ht.
    destruct Ht as [Ht _]. apply in_associationsOf in Ht.
    apply in_or_app. left. tauto.
  - apply in_or_app. now left.
  - intros Ht. apply Hnot. now apply firstn_incl in Ht.
Qed.

(* ================================================================= *)
(** ** A desired pair that does not resolve *)

Lemma unresolved_same s s' (input : CreateInput.t) :
  sameTables s s' -> unresolved s input -> unresolved s' input.
Proof. unfold unresolved. intros (-> & -> & -> & _). auto. Qed.

Lemma create_unresolved ctx (input : CreateInput.t) w :
  unresolved (db w) input -> exists e, fst (create ctx input w) = Err e.
Proof.
  unfold unresolved. intros Hmiss. rewrite create_run.
  destruct (findOneById User.id _ _) as [u|];
    [destruct (findOneById Channel.id _ _) as [c|];
     [destruct (findOneById Role.id _ _) as [r|]|]|];
    simpl; eauto.
  destruct Hmiss as [H|[H|H]]; discriminate.
Qed.

Lemma create_sameTables ctx (input : CreateInput.t) w :
  sameTables (db w) (db (snd (create ctx input w))).
Proof.
  rewrite create_run.
  destruct (findOneById User.id _ _) as [u|];
    [destruct (findOneById Channel.id _ _) as [c|];
     [destruct (findOneById Role.id _ _) as [r|]|]|];
    simpl; repeat split.
Qed.

(** One unresolved pair makes the joint creation fail. *)
Lemma createAll_unresolved ctx (user : User.t) (pairs : list ChannelRoleInput.t) :
  forall w p,
    In p pairs ->
    unresolved (db w) (createInputOf user p) ->
    exists e, fst (createAll ctx user pairs w) = Err e.
Proof.
  induction pairs as [|q ps IH]; intros w p Hin Hmiss; [destruct Hin|].
  unfold createAll. simpl. unfold joint.
  pose proof (create_sameTables ctx (createInputOf user q) w) as Htab.
  change (CreateInput.mk (User.id user) (ChannelRoleInput.channelId q)
            (ChannelRoleInput.roleId q)) with (createInputOf user q).
  destruct (create ctx (createInputOf user q) w) as [r1 w1] eqn:E1. simpl in Htab.
  change (promiseAll (map _ ps)) with (createAll ctx user ps).
  destruct (createAll ctx user ps w1) as [r2 w2] eqn:E2.
  destruct Hin as [->|Hin].
  - destruct (create_unresolved ctx _ w Hmiss) as [e He].
    rewrite E1 in He. simpl in He. subst r1. destruct r2; simpl; eauto.
  - destruct (IH w1 p Hin (unresolved_same _ _ _ Htab Hmiss)) as [e He].
    rewrite E2 in He. simpl in He. subst r2. destruct r1; simpl; eauto.
Qed.

Lemma filter_isDelete_createCalls (user : User.t) (pairs : list ChannelRoleInput.t) :
  filter isDelete (createCalls user pairs) = [].
Proof. induction pairs as [|p ps IH]; simpl; [reflexivity | exact IH]. Qed.

(** X11.  When a pair to add names a user, channel or role that does not
    resolve, [saveUserRoles] fails with NotFound before its removal phase:
    no deletion is issued and every row the table held is still there. *)
Theorem saveUserRoles_unresolved_pair ctx (user : User.t)
    (input : list ChannelRoleInput.t) w (p : ChannelRoleInput.t) :
  In p (toAddPairs (associationsOf (db w) (User.id user)) input) ->
  unresolved (db w) (createInputOf user p) ->
  (exists name id,
     fst (saveUserRoles ctx user input w) = Err (EntityNotFoundError name id)) /\
  filter isDelete (issued w (snd (saveUserRoles ctx user input w))) = [] /\
  (forall cr, In cr (channelRoles (db w)) ->
     In cr (channelRoles (db (snd (saveUserRoles ctx user input w))))).
Proof.
  intros Hp Hmiss. rewrite saveUserRoles_run. cbv zeta.
  destruct (createAll_unresolved ctx user _ w p Hp Hmiss) as [e He].
  destruct (createAll ctx user _ w) as [res w1] eqn:Ecreate. simpl in He. subst res.
  destruct (createAll_spec _ _ _ _ _ _ Ecreate)
    as (Hcalls & _ & _ & newRows & Hrows & _ & _ & Herr).
  destruct (Herr e eq_refl) as (name & id & ->). simpl.
  split; [eauto|]. split.
  - rewrite (issued_app _ _ _ Hcalls). apply filter_isDelete_createCalls.
  - intros cr Hcr. rewrite Hrows. apply in_or_app. now left.
Qed.
(* ================================================================= *)
(** ** The primary keys, operation by operation *)

(** X12.  [create], [delete] and [saveUserRoles] keep the primary-key
    discipline of the junction table, whatever they return: ids stay
    pairwise distinct and below the counter. *)
Theorem operations_keep_primaryKeys ctx w :
  primaryKeysOk (db w) ->
  (forall input, primaryKeysOk (db (snd (create ctx input w)))) /\
  (forall id, primaryKeysOk (db (snd (delete ctx id w)))) /\
  (forall user input, primaryKeysOk (db (snd (saveUserRoles ctx user input w)))).
Proof.
  intros Hpk. split; [|split].
  - intros input. rewrite create_run.
    destruct (findOneById User.id _ _) as [u|];
      [destruct (findOneById Channel.id _ _) as [c|];
       [destruct (findOneById Role.id _ _) as [r|]|]|];
      simpl; try exact Hpk.
    now apply primaryKeysOk_save.
  - intros id. rewrite delete_run.
    destruct (findOneById ChannelRole.id _ _) as [cr|]; [|exact Hpk].
    destruct (removeFailure _ _) as [m|]; [exact Hpk|].
    simpl. now apply primaryKeysOk_without.
  - intros user input. now apply saveUserRoles_keeps_primaryKeys.
Qed.

(* ================================================================= *)
(** ** A mutation input without channelRoles *)

Lemma toAddPairs_nil (current : list ChannelRole.t) : toAddPairs current [] = [].
Proof. reflexivity. Qed.

Lemma toRemoveChannelRoles_nil (current : list ChannelRole.t) :
  toRemoveChannelRoles current [] = current.
Proof. unfold toRemoveChannelRoles. apply filter_all. reflexivity. Qed.

(** X13.  [getChannelIdsFromAdministratorMutationInput] never fails and
    changes nothing; it yields the [channelRoles] of the input, and the
    empty list when the input has none.  Handing that empty list to
    [saveUserRoles] creates nothing and, the database accepting the
    removals, deletes every association of the user, in table order. *)
Theorem absent_channelRoles_removes_all (T : Type) ctx
    (input : AdministratorMutationInput.t T) (user : User.t) w :
  primaryKeysOk (db w) ->
  Forall (removable (db w)) (associationsOf (db w) (User.id user)) ->
  AdministratorMutationInput.channelRoles input = None ->
  getChannelIdsFromAdministratorMutationInput ctx input w = (Ok [], w) /\
  exists w',
    saveUserRoles ctx user [] w = (Ok tt, w') /\
    issued w w' = deleteCalls (associationsOf (db w) (User.id user)) /\
    associationsOf (db w') (User.id user) = [].
Proof.
  intros [Hnd _] Hrem Hnone.
  split; [unfold getChannelIdsFromAdministratorMutationInput, ret; now rewrite Hnone|].
  set (current := associationsOf (db w) (User.id user)) in *.
  assert (Hnd' : NoDup (rowIds current)) by (now apply rowIds_filter).
  assert (Hincl : incl current (channelRoles (db w))).
  { intros x Hx. apply in_associationsOf in Hx. tauto. }
  destruct (removeAll_completes ctx current w Hnd' Hincl Hrem) as (w' & Hrun & Hcalls & Hrows).
  exists w'. split; [|split].
  - rewrite saveUserRoles_run. cbv zeta. fold current.
    rewrite toAddPairs_nil, toRemoveChannelRoles_nil, createAll_nil. exact Hrun.
  - now apply issued_app.
  - unfold associationsOf. rewrite Hrows. apply filter_none. intros x Hx.
    destruct (ofUser (User.id user) x) eqn:Hu; [|reflexivity]. exfalso.
    assert (Hcur : In x current).
    { apply in_associationsOf. apply in_without in Hx. tauto. }
    exact (removed_row _ _ _ Hcur Hx).
Qed.

(** When [channelRoles] is there, it is returned as it is. *)
Lemma getChannelIds_present (T : Type) ctx (input : AdministratorMutationInput.t T)
    (pairs : list ChannelRoleInput.t) w :
  AdministratorMutationInput.channelRoles input = Some pairs ->
  getChannelIdsFromAdministratorMutationInput ctx input w = (Ok pairs, w).
Proof.
  intros H. unfold getChannelIdsFromAdministratorMutationInput, ret. now rewrite H.
Qed.

(* ================================================================= *)
(** ** The permission view after a reconciliation *)

Lemma findOneById_congr {A} (getId : A -> ID) (table : list A) (a b : ID) :
  idsAreEqual a b = true -> findOneById getId table a = findOneById getId table b.
Proof.
  intros H. unfold findOneById.
  induction table as [|x xs IH]; simpl; [reflexivity|].
  rewrite (idsAreEqual_sym _ a), (idsAreEqual_sym _ b), (idsAreEqual_congr _ _ _ H).
  now rewrite IH.
Qed.

Lemma same_key_same_ids (cr : ChannelRole.t) (p : ChannelRoleInput.t) :
  rowKey cr = inputKey p ->
  idsAreEqual (ChannelRole.channelId cr) (ChannelRoleInput.channelId p) = true /\
  idsAreEqual (ChannelRole.roleId cr) (ChannelRoleInput.roleId p) = true.
Proof.
  unfold rowKey, inputKey, pairKey. intros H. inversion H.
  split; now apply idsAreEqual_true.
Qed.

(** A row and a desired pair with the same key have the same view. *)
Lemma viewOf_pair s (cr : ChannelRole.t) (p : ChannelRoleInput.t)
    (entry : UserChannelPermissions.t) :
  rowKey cr = inputKey p -> (viewOf s cr entry <-> viewOfPair s p entry).
Proof.
  intros Hk. destruct (same_key_same_ids _ _ Hk) as [Hc Hr].
  unfold viewOf, viewOfPair.
  rewrite (findOneById_congr Channel.id _ _ _ Hc), (findOneById_congr Role.id _ _ _ Hr).
  reflexivity.
Qed.

Lemma viewOf_same s s' (cr : ChannelRole.t) (entry : UserChannelPermissions.t) :
  sameTables s s' -> viewOf s' cr entry -> viewOf s cr entry.
Proof. unfold viewOf. intros (_ & -> & -> & _). auto. Qed.

Lemma Forall2_right {A B} (R : A -> B -> Prop) (xs : list A) (ys : list B) (y : B) :
  Forall2 R xs ys -> In y ys -> exists x, In x xs /\ R x y.
Proof.
  induction 1 as [|x0 y0 xs ys HR _ IH]; simpl; [tauto|].
  intros [<-|Hy]; [exists x0; auto|].
  destruct (IH Hy) as [x [Hx Hxy]]. exists x. auto.
Qed.

Lemma Forall2_left {A B} (R : A -> B -> Prop) (xs : list A) (ys : list B) (x : A) :
  Forall2 R xs ys -> In x xs -> exists y, In y ys /\ R x y.
Proof.
  induction 1 as [|x0 y0 xs ys HR _ IH]; simpl; [tauto|].
  intros [<-|Hx]; [exists y0; auto|].
  destruct (IH Hx) as [y [Hy Hxy]]. exists y. auto.
Qed.

(** After the creations went through, every desired pair names a channel
    and a role that resolve: the pairs to add because they were loaded, the
    others because a current row carries them. *)
Lemma desired_pairs_resolve ctx (user : User.t) (input : list ChannelRoleInput.t) w
    (created : list ChannelRole.t) w1 :
  relationsResolve (db w) (User.id user) ->
  createAll ctx user (toAddPairs (associationsOf (db w) (User.id user)) input) w
    = (Ok created, w1) ->
  forall p, In p input ->
    findOneById Channel.id (channels (db w)) (ChannelRoleInput.channelId p) <> None /\
    findOneById Role.id (roles (db w)) (ChannelRoleInput.roleId p) <> None.
Proof.
  intros Hrel Hcreate p Hp.
  set (current := associationsOf (db w) (User.id user)) in *.
  destruct (notFound (matchesInput p) current) eqn:E.
  - assert (Hadd : In p (toAddPairs current input))
      by (unfold toAddPairs; apply filter_In; tauto).
    split; intros Hnone.
    + destruct (createAll_unresolved ctx user _ w p Hadd) as [e He].
      * right. left. exact Hnone.
      * rewrite Hcreate in He. discriminate.
    + destruct (createAll_unresolved ctx user _ w p Hadd) as [e He].
      * right. right. exact Hnone.
      * rewrite Hcreate in He. discriminate.
  - apply notFound_false in E. destruct E as [cr [Hcr Hm]].
    apply matchesInput_key in Hm. destruct (same_key_same_ids _ _ Hm) as [Hc Hr].
    destruct (Hrel cr Hcr) as [Hch Hro].
    rewrite <- (findOneById_congr Channel.id _ _ _ Hc), <- (findOneById_congr Role.id _ _ _ Hr).
    auto.
Qed.

(** X14.  After a successful [saveUserRoles] on a user whose associations
    referred to existing channels and roles, [getPermissionsForUser]
    succeeds, and its entries are those of the desired pairs: each entry
    shows the channel and the permissions of the role of some desired pair,
    and each desired pair has its entry. *)
Theorem saveUserRoles_then_permissions ctx (user : User.t)
    (input : list ChannelRoleInput.t) w w' :
  primaryKeysOk (db w) ->
  relationsResolve (db w) (User.id user) ->
  saveUserRoles ctx user input w = (Ok tt, w') ->
  exists entries,
    getPermissionsForUser user w' = (Ok entries, w') /\
    (forall entry, In entry entries -> exists p, In p input /\ viewOfPair (db w) p entry) /\
    (forall p, In p input -> exists entry, In entry entries /\ viewOfPair (db w) p entry).
Proof.
  intros Hpk Hrel Hsave.
  destruct (saveUserRoles_ok_rows _ _ _ _ _ Hpk Hsave) as [Hrows Hpairs].
  assert (Htab : sameTables (db w) (db w')).
  { destruct (saveUserRoles_table ctx user input w) as (? & ? & _ & _ & H & _).
    now rewrite Hsave in H. }
  assert (Hres : forall p, In p input ->
            findOneById Channel.id (channels (db w)) (ChannelRoleInput.channelId p) <> None /\
            findOneById Role.id (roles (db w)) (ChannelRoleInput.roleId p) <> None).
  { rewrite saveUserRoles_run in Hsave. cbv zeta in Hsave.
    destruct (createAll ctx user _ w) as [[created|e] w1] eqn:Ecreate; [|discriminate].
    exact (desired_pairs_resolve _ _ _ _ _ _ Hrel Ecreate). }
  assert (Hrel' : forall cr, In cr (associationsOf (db w') (User.id user)) ->
            findOneById Channel.id (channels (db w')) (ChannelRole.channelId cr) <> None /\
            findOneById Role.id (roles (db w')) (ChannelRole.roleId cr) <> None).
  { intros cr Hcr. destruct (Hrows _ Hcr) as [p [Hp Hk]].
    destruct (same_key_same_ids _ _ Hk) as [Hc Hr].
    destruct Htab as (_ & -> & -> & _).
    rewrite (findOneById_congr Channel.id _ _ _ Hc), (findOneById_congr Role.id _ _ _ Hr).
    now apply Hres. }
  destruct (mapResult_toPermissions (db w') _ Hrel') as [entries [Hmap Hall]].
  exists entries. split; [|split].
  - unfold getPermissionsForUser, bind, findByUserWithRelations.
    unfold associationsOf in Hmap. now rewrite Hmap.
  - intros entry Hentry.
    destruct (Forall2_right _ _ _ _ Hall Hentry) as [cr [Hcr Hview]].
    destruct (Hrows _ Hcr) as [p [Hp Hk]].
    exists p. split; [exact Hp|].
    apply (viewOf_pair _ _ _ _ Hk). now apply (viewOf_same _ _ _ _ Htab).
  - intros p Hp. destruct (Hpairs _ Hp) as [cr [Hcr Hk]].
    destruct (Forall2_left _ _ _ _ Hall Hcr) as [entry [Hentry Hview]].
    exists entry. split; [exact Hentry|].
    apply (viewOf_pair _ _ _ _ Hk). now apply (viewOf_same _ _ _ _ Htab).
Qed.
Lemma mapResult_err {A B} (f : A -> Result B) (xs : list A) (x : A) (e : Error) :
  (forall y e', f y = Err e' -> e' = e) ->
  In x xs -> f x = Err e -> mapResult f xs = Err e.
Proof.
  intros Hsame. induction xs as [|y ys IH]; simpl; intros Hin Hx; [tauto|].
  destruct (f y) as [b|e'] eqn:Ey.
  - destruct Hin as [->|Hin]; [congruence|].
    now rewrite (IH Hin Hx).
  - now rewrite (Hsame _ _ Ey).
Qed.

(** X15.  When one of the user's associations refers to a channel or a
    role that no longer resolves, [getPermissionsForUser] returns no
    partial view: the whole call throws, and nothing is changed. *)
Theorem getPermissionsForUser_dangling (user : User.t) w (cr : ChannelRole.t) :
  In cr (associationsOf (db w) (User.id user)) ->
  findOneById Channel.id (channels (db w)) (ChannelRole.channelId cr) = None \/
  findOneById Role.id (roles (db w)) (ChannelRole.roleId cr) = None ->
  getPermissionsForUser user w = (Err TypeError, w).
Proof.
  intros Hcr Hmiss.
  unfold getPermissionsForUser, bind, findByUserWithRelations. f_equal.
  apply (mapResult_err _ _ (loadRelations (db w) cr)).
  - intros y e'. unfold toPermissions.
    destruct (ChannelRole.rel_channel y), (ChannelRole.rel_role y); congruence.
  - apply in_map. exact Hcr.
  - unfold toPermissions, loadRelations. simpl.
    destruct Hmiss as [-> | ->]; [reflexivity|].
    now destruct (findOneById Channel.id _ _).
Qed.

(* ================================================================= *)
(** ** The outcome of saveUserRoles, exactly *)

Lemma createAll_ok_rows ctx (user : User.t) (pairs : list ChannelRoleInput.t) :
  forall w created w1,
    createAll ctx user pairs w = (Ok created, w1) ->
    channelRoles (db w1) = channelRoles (db w) ++ created /\
    Forall2 (createdAs user) pairs created.
Proof.
  induction pairs as [|p ps IH]; intros w created w1 H.
  - rewrite createAll_nil in H. inversion H; subst.
    split; [now rewrite app_nil_r | constructor].
  - unfold createAll in H. simpl in H. unfold joint in H.
    destruct (create ctx _ w) as [r1 w0] eqn:E1.
    change (promiseAll (map _ ps)) with (createAll ctx user ps) in H.
    destruct (createAll ctx user ps w0) as [r2 w2] eqn:E2.
    destruct r1 as [row|e1]; [|destruct r2; discriminate].
    destruct r2 as [rows|e2]; [|discriminate].
    inversion H; subst; clear H.
    apply create_ok_inv in E1. simpl in E1. destruct E1 as (_ & Hu & Hc & Hr & ->).
    destruct (IH _ _ _ E2) as [Hrows Hall]. simpl in Hrows.
    split; [rewrite Hrows, <- app_assoc; reflexivity|].
    constructor; [|exact Hall].
    split; [exact Hu|]. unfold matchesInput. now rewrite Hr, Hc.
Qed.

Lemma createAll_resolved ctx (user : User.t) (pairs : list ChannelRoleInput.t) :
  forall w,
    (forall p, In p pairs -> ~ unresolved (db w) (createInputOf user p)) ->
    exists created, fst (createAll ctx user pairs w) = Ok created.
Proof.
  induction pairs as [|q ps IH]; intros w Hall.
  - exists []. reflexivity.
  - unfold createAll. simpl. unfold joint.
    pose proof (create_sameTables ctx (createInputOf user q) w) as Htab.
    change (CreateInput.mk (User.id user) (ChannelRoleInput.channelId q)
              (ChannelRoleInput.roleId q)) with (createInputOf user q).
    assert (Hq : exists row, fst (create ctx (createInputOf user q) w) = Ok row).
    { specialize (Hall q (or_introl eq_refl)). unfold unresolved in Hall.
      rewrite create_run.
      destruct (findOneById User.id _ _) as [u|]; [|tauto].
      destruct (findOneById Channel.id _ _) as [c|]; [|tauto].
      destruct (findOneById Role.id _ _) as [r|]; [|tauto].
      simpl. eauto. }
    destruct (create ctx (createInputOf user q) w) as [r1 w1] eqn:E1.
    simpl in Htab, Hq. destruct Hq as [row ->].
    change (promiseAll (map _ ps)) with (createAll ctx user ps).
    destruct (IH w1) as [created Hcreated].
    { intros p Hp Hmiss. apply (Hall p (or_intror Hp)).
      destruct Htab as (Hu & Hc & Hr & _). unfold unresolved in *.
      now rewrite Hu, Hc, Hr in Hmiss. }
    destruct (createAll ctx user ps w1) as [r2 w2]. simpl in Hcreated. subst r2.
    simpl. eauto.
Qed.


(** X17.  [saveUserRoles] succeeds as soon as the user, the channel and
    the role of every pair to add resolve and the database accepts the
    removal of every row to remove. *)
Theorem saveUserRoles_succeeds ctx (user : User.t) (input : list ChannelRoleInput.t) w :
  primaryKeysOk (db w) ->
  (forall p, In p (toAddPairs (associationsOf (db w) (User.id user)) input) ->
     ~ unresolved (db w) (createInputOf user p)) ->
  Forall (removable (db w))
    (toRemoveChannelRoles (associationsOf (db w) (User.id user)) input) ->
  fst (saveUserRoles ctx user input w) = Ok tt.
Proof.
  intros Hpk Hres Hrem.
  destruct (createAll_resolved ctx user _ w Hres) as [created Hcreated].
  rewrite saveUserRoles_run. cbv zeta.
  destruct (createAll ctx user _ w) as [res w1] eqn:Ecreate. simpl in Hcreated. subst res.
  destruct (toRemove_after_create _ _ _ _ _ _ Hpk Ecreate) as (Hnd & Hincl & Htab).
  assert (Hrem1 : Forall (removable (db w1))
                    (toRemoveChannelRoles (associationsOf (db w) (User.id user)) input)).
  { eapply Forall_impl; [|exact Hrem]. intros x Hx. unfold removable in *.
    now rewrite (removeFailure_same _ _ _ Htab). }
  destruct (removeAll_completes ctx _ _ Hnd Hincl Hrem1) as (w' & Hrun & _).
  now rewrite Hrun.
Qed.

(* ================================================================= *)
(** ** Retrying after a refused removal *)

Lemma filter_swap {A} (f g : A -> bool) (xs : list A) :
  filter f (filter g xs) = filter g (filter f xs).
Proof.
  rewrite !filter_twice. apply filter_ext. intros x. apply andb_comm.
Qed.

(** Removing the rows before the refused one from the diff leaves the
    refused row and the rows after it. *)
Lemma without_prefix (pre post : list ChannelRole.t) (cr : ChannelRole.t) :
  NoDup (rowIds (pre ++ cr :: post)) ->
  without (idsOf pre) (pre ++ cr :: post) = cr :: post.
Proof.
  intros Hnd. unfold without. rewrite filter_app.
  rewrite (filter_none _ pre), (filter_all _ (cr :: post)); [reflexivity| |].
  - intros x Hx. apply negb_true_iff.
    destruct (existsb _ _) eqn:E; [|reflexivity]. exfalso.
    apply existsb_exists in E. destruct E as [i [Hi Hsame]].
    unfold idsOf in Hi. apply in_map_iff in Hi. destruct Hi as [t [<- Ht]].
    apply idsAreEqual_true in Hsame. rewrite rowIds_app in Hnd.
    apply (NoDup_app_disjoint _ _ (toString (ChannelRole.id t)) Hnd).
    + unfold rowIds. now apply (in_map (fun r => toString (ChannelRole.id r))).
    + rewrite <- Hsame. unfold rowIds.
      now apply (in_map (fun r => toString (ChannelRole.id r))).
  - intros x Hx. apply negb_false_iff. apply existsb_exists.
    exists (ChannelRole.id x). split; [now apply in_map | apply idsAreEqual_refl].
Qed.

(** X18.  A reconciliation stopped by a refused removal can be resumed: on
    the world it left, the diff of the same input has nothing to add, so a
    retry creates no row twice, and what it has to remove is the refused
    row followed by the rows that were not reached. *)
Theorem saveUserRoles_retry_resumes ctx (user : User.t) (input : list ChannelRoleInput.t)
    w (created : list ChannelRole.t) w1 (pre post : list ChannelRole.t)
    (cr : ChannelRole.t) (m : option string) :
  primaryKeysOk (db w) ->
  createAll ctx user (toAddPairs (associationsOf (db w) (User.id user)) input) w
    = (Ok created, w1) ->
  toRemoveChannelRoles (associationsOf (db w) (User.id user)) input = pre ++ cr :: post ->
  Forall (removable (db w)) pre ->
  removeFailure (db w) (ChannelRole.id cr) = Some m ->
  let w' := snd (saveUserRoles ctx user input w) in
  toAddPairs (associationsOf (db w') (User.id user)) input = [] /\
  toRemoveChannelRoles (associationsOf (db w') (User.id user)) input = cr :: post.
Proof.
  intros Hpk Hcreate Hsplit Hpre Hfail. cbv zeta.
  destruct (toRemove_after_create _ _ _ _ _ _ Hpk Hcreate) as (Hnd & Hincl & Htab).
  destruct (createAll_ok_rows _ _ _ _ _ _ Hcreate) as [Hrows1 Hall].
  rewrite Hsplit in Hnd, Hincl.
  assert (Hpre1 : Forall (removable (db w1)) pre).
  { eapply Forall_impl; [|exact Hpre]. intros x Hx. unfold removable in *.
    now rewrite (removeFailure_same _ _ _ Htab). }
  assert (Hfail1 : removeFailure (db w1) (ChannelRole.id cr) = Some m)
    by now rewrite (removeFailure_same _ _ _ Htab).
  destruct (removeAll_stops ctx _ _ _ _ _ Hnd Hincl Hpre1 Hfail1) as (w' & Hrun & _ & Hrows).
  rewrite saveUserRoles_run. cbv zeta. rewrite Hcreate, Hsplit, Hrun. simpl.
  set (current := associationsOf (db w) (User.id user)) in *.
  assert (Hcreated : forall x, In x created ->
            ofUser (User.id user) x = true /\ exists p, In p input /\ matchesInput p x = true).
  { intros x Hx. destruct (Forall2_right _ _ _ _ Hall Hx) as [p [Hp [Hu Hm]]].
    split; [exact Hu|]. exists p. split; [|exact Hm]. apply in_toAddPairs in Hp. tauto. }
  split.
  - destruct (createAll_spec _ _ _ _ _ _ Hcreate) as (_ & _ & Hpk1 & _).
    destruct (Hpk1 Hpk) as [Hnd1 _].
    assert (Hkeep : forall x, In x (channelRoles (db w1)) ->
              (exists p, In p input /\ rowKey x = inputKey p) ->
              In x (channelRoles (db w'))).
    { intros x Hx [p [Hp Hk]]. rewrite Hrows. apply kept_row; auto.
      - intros t Ht. apply Hincl. apply in_or_app. now left.
      - intros Ht.
        assert (Hrem : In x (toRemoveChannelRoles current input))
          by (rewrite Hsplit; apply in_or_app; now left).
        apply in_toRemoveChannelRoles in Hrem. destruct Hrem as [_ Hrem].
        exact (Hrem _ Hp Hk). }
    apply filter_none. intros p Hp. apply notFound_false.
    destruct (notFound (matchesInput p) current) eqn:E.
    + assert (Hadd : In p (toAddPairs current input))
        by (unfold toAddPairs; apply filter_In; tauto).
      destruct (Forall2_left _ _ _ _ Hall Hadd) as [row [Hrow [Hu Hm]]].
      exists row. split; [|exact Hm].
      apply in_associationsOf. split; [|exact Hu].
      apply Hkeep.
      * rewrite Hrows1. apply in_or_app. now right.
      * exists p. split; [exact Hp | now apply matchesInput_key].
    + apply notFound_false in E. destruct E as [x [Hx Hm]].
      exists x. split; [|exact Hm].
      apply in_associationsOf in Hx. apply in_associationsOf. split; [|tauto].
      apply Hkeep.
      * rewrite Hrows1. apply in_or_app. left. tauto.
      * exists p. split; [exact Hp | now apply matchesInput_key].
  - unfold toRemoveChannelRoles at 1, associationsOf at 1.
    rewrite Hrows, Hrows1. unfold without at 1.
    rewrite (filter_swap (ofUser (User.id user))), filter_swap.
    rewrite !filter_app.
    rewrite (filter_none _ (filter (ofUser (User.id user)) created)).
    + rewrite app_nil_r.
      change (filter _ (filter (ofUser (User.id user)) (channelRoles (db w))))
        with (toRemoveChannelRoles current input).
      rewrite Hsplit. now apply without_prefix.
    + intros x Hx. apply filter_In in Hx. destruct Hx as [Hx _].
      destruct (Hcreated _ Hx) as [_ [p [Hp Hm]]].
      apply notFound_false. exists p. split; [exact Hp|].
      apply matchesRow_key. now apply matchesInput_key.
Qed.

End MoreProperties.

(* ================================================================= *)
(** ** These properties at work on the small installation *)

Lemma update_not_found_witness :
  (exists name id,
     fst (update tt (UpdateInput.mk (IdNum 2) (IdNum 42) (IdStr "999") (IdNum 10))
            (start sharedStore)) = Err (EntityNotFoundError name id)) /\
  snd (update tt (UpdateInput.mk (IdNum 2) (IdNum 42) (IdStr "999") (IdNum 10))
         (start sharedStore)) = start sharedStore.
Proof.
  apply (update_not_found tt (UpdateInput.mk (IdNum 2) (IdNum 42) (IdStr "999") (IdNum 10))
           (start sharedStore)).
  right. right. left. reflexivity.
Defined.

Lemma update_replaces_witness :
  let input := UpdateInput.mk (IdStr "2") (IdNum 42) (IdNum 2) (IdNum 99) in
  let row := ChannelRole.mk (IdNum 2) (IdNum 42) (IdNum 2) (IdNum 99) in
  let w' := snd (update tt input (start sharedStore)) in
  fst (update tt input (start sharedStore)) = Ok row /\
  channelRoles (db w') =
    map (fun cr => if idsAreEqual (ChannelRole.id cr) (IdStr "2") then row else cr)
      (channelRoles sharedStore) /\
  rowIds (channelRoles (db w')) = rowIds (channelRoles sharedStore) /\
  nextId (db w') = nextId sharedStore /\
  sameTables sharedStore (db w') /\
  calls w' = [].
Proof.
  apply (update_replaces tt (UpdateInput.mk (IdStr "2") (IdNum 42) (IdNum 2) (IdNum 99))
           (start sharedStore)
           (ChannelRole.mk (IdNum 2) (IdNum 43) (IdNum 1) (IdNum 20)) alice channel2 role99);
    reflexivity.
Defined.

Lemma update_keeps_primaryKeys_witness :
  primaryKeysOk
    (db (snd (update tt (UpdateInput.mk (IdStr "2") (IdNum 42) (IdNum 2) (IdNum 99))
                (start sharedStore)))).
Proof.
  apply (update_keeps_primaryKeys tt _ (start sharedStore)).
  apply primaryKeysOkb_sound. reflexivity.
Defined.

Lemma update_then_lookup_witness :
  let input := UpdateInput.mk (IdStr "2") (IdNum 42) (IdNum 2) (IdNum 99) in
  let w' := snd (update tt input (start sharedStore)) in
  getEntityOrThrow tt "ChannelRole" channelRoles ChannelRole.id (IdStr "2") w' =
  (Ok (ChannelRole.mk (IdNum 2) (IdNum 42) (IdNum 2) (IdNum 99)), w').
Proof.
  apply (update_then_lookup tt (UpdateInput.mk (IdStr "2") (IdNum 42) (IdNum 2) (IdNum 99))
           (start sharedStore)).
  vm_compute. reflexivity.
Defined.

Lemma update_idempotent_witness :
  let input := UpdateInput.mk (IdStr "2") (IdNum 42) (IdNum 2) (IdNum 99) in
  let w' := snd (update tt input (start sharedStore)) in
  update tt input w' = (Ok (ChannelRole.mk (IdNum 2) (IdNum 42) (IdNum 2) (IdNum 99)), w').
Proof.
  apply (update_idempotent tt (UpdateInput.mk (IdStr "2") (IdNum 42) (IdNum 2) (IdNum 99))
           (start sharedStore)).
  vm_compute. reflexivity.
Defined.

Lemma delete_twice_not_found_witness :
  let w1 := snd (delete tt (IdStr "1") (start sharedStore)) in
  delete tt (IdStr "1") w1 =
    (Err (EntityNotFoundError "ChannelRole" (IdStr "1")), logged w1 (CallDelete (IdStr "1"))) /\
  channelRoles (db (snd (delete tt (IdStr "1") w1))) = channelRoles (db w1).
Proof.
  apply (delete_twice_not_found tt (IdStr "1") (start sharedStore)
           (DeletionResponse.mk DELETED None)).
  - vm_compute. reflexivity.
  - reflexivity.
Defined.

Lemma create_then_delete_restores_witness :
  let w1 := snd (create tt (CreateInput.mk (IdNum 43) (IdNum 2) (IdNum 99)) (start sharedStore)) in
  fst (delete tt (IdNum 4) w1) = Ok (DeletionResponse.mk DELETED None) /\
  channelRoles (db (snd (delete tt (IdNum 4) w1))) = channelRoles sharedStore.
Proof.
  apply (create_then_delete_restores tt (CreateInput.mk (IdNum 43) (IdNum 2) (IdNum 99))
           (start sharedStore) (ChannelRole.mk (IdNum 4) (IdNum 43) (IdNum 2) (IdNum 99))).
  - apply primaryKeysOkb_sound. reflexivity.
  - vm_compute. reflexivity.
  - reflexivity.
Defined.

Lemma saveUserRoles_other_users_untouched_witness :
  associationsOf (db (snd (saveUserRoles tt alice [pair 1 99] (start sharedStore)))) (User.id bob)
  = associationsOf sharedStore (User.id bob).
Proof.
  apply (saveUserRoles_other_users_untouched tt alice [pair 1 99] (start sharedStore)
           (User.id bob)).
  - apply primaryKeysOkb_sound. reflexivity.
  - reflexivity.
Defined.

Lemma saveUserRoles_removes_only_diff_witness :
  In (ChannelRole.mk (IdNum 3) (IdNum 42) (IdNum 2) (IdNum 20))
    (channelRoles
       (db (snd (saveUserRoles tt alice [ChannelRoleInput.mk (IdStr "2") (IdStr "20")]
                   (start sharedStore))))).
Proof.
  apply (saveUserRoles_removes_only_diff tt alice
           [ChannelRoleInput.mk (IdStr "2") (IdStr "20")] (start sharedStore)).
  - apply primaryKeysOkb_sound. reflexivity.
  - simpl. tauto.
  - vm_compute. intros [H|[]]. discriminate.
Defined.

Lemma saveUserRoles_unresolved_pair_witness :
  let input := [pair 1 99; ChannelRoleInput.mk (IdStr "999") (IdNum 10)] in
  (exists name id,
     fst (saveUserRoles tt alice input (start sharedStore)) = Err (EntityNotFoundError name id)) /\
  filter isDelete (issued (start sharedStore)
                     (snd (saveUserRoles tt alice input (start sharedStore)))) = [] /\
  (forall cr, In cr (channelRoles sharedStore) ->
     In cr (channelRoles (db (snd (saveUserRoles tt alice input (start sharedStore)))))).
Proof.
  apply (saveUserRoles_unresolved_pair tt alice
           [pair 1 99; ChannelRoleInput.mk (IdStr "999") (IdNum 10)] (start sharedStore)
           (ChannelRoleInput.mk (IdStr "999") (IdNum 10))).
  - vm_compute. right. left. reflexivity.
  - right. left. reflexivity.
Defined.

Lemma operations_keep_primaryKeys_witness :
  primaryKeysOk
    (db (snd (create tt (CreateInput.mk (IdNum 43) (IdNum 2) (IdNum 99)) (start sharedStore)))) /\
  primaryKeysOk (db (snd (delete tt (IdNum 2) (start sharedStore)))) /\
  primaryKeysOk (db (snd (saveUserRoles tt alice [pair 1 99] (start sharedStore)))).
Proof.
  destruct (operations_keep_primaryKeys tt (start sharedStore)) as (Hc & Hd & Hs).
  - apply primaryKeysOkb_sound. reflexivity.
  - split; [apply Hc | split; [apply Hd | apply Hs]].
Defined.

Lemma absent_channelRoles_removes_all_witness :
  getChannelIdsFromAdministratorMutationInput tt
    (AdministratorMutationInput.mk "Alice" None) (start sharedStore)
  = (Ok [], start sharedStore) /\
  exists w',
    saveUserRoles tt alice [] (start sharedStore) = (Ok tt, w') /\
    issued (start sharedStore) w' = deleteCalls (associationsOf sharedStore (User.id alice)) /\
    associationsOf (db w') (User.id alice) = [].
Proof.
  apply (absent_channelRoles_removes_all string tt
           (AdministratorMutationInput.mk "Alice" None) alice (start sharedStore)).
  - apply primaryKeysOkb_sound. reflexivity.
  - vm_compute. repeat constructor.
  - reflexivity.
Defined.

Lemma saveUserRoles_then_permissions_witness :
  let input := [ChannelRoleInput.mk (IdStr "2") (IdStr "99"); pair 1 10] in
  let w' := snd (saveUserRoles tt alice input (start sharedStore)) in
  exists entries,
    getPermissionsForUser alice w' = (Ok entries, w') /\
    (forall entry, In entry entries -> exists p, In p input /\ viewOfPair sharedStore p entry) /\
    (forall p, In p input -> exists entry, In entry entries /\ viewOfPair sharedStore p entry).
Proof.
  apply (saveUserRoles_then_permissions tt alice
           [ChannelRoleInput.mk (IdStr "2") (IdStr "99"); pair 1 10] (start sharedStore)).
  - apply primaryKeysOkb_sound. reflexivity.
  - intros cr Hcr. vm_compute in Hcr.
    destruct Hcr as [<-|[<-|[]]]; split; vm_compute; discriminate.
  - vm_compute. reflexivity.
Defined.

Lemma getPermissionsForUser_dangling_witness :
  getPermissionsForUser alice (start danglingStore) = (Err TypeError, start danglingStore).
Proof.
  apply (getPermissionsForUser_dangling alice (start danglingStore)
           (ChannelRole.mk (IdNum 2) (IdNum 42) (IdNum 2) (IdNum 20))).
  - vm_compute. tauto.
  - left. reflexivity.
Defined.


Lemma saveUserRoles_succeeds_witness :
  fst (saveUserRoles tt alice [pair 2 10; pair 1 10] (start sharedStore)) = Ok tt.
Proof.
  apply (saveUserRoles_succeeds tt alice [pair 2 10; pair 1 10] (start sharedStore)).
  - apply primaryKeysOkb_sound. reflexivity.
  - intros p Hp. vm_compute in Hp. destruct Hp as [<-|[]].
    unfold unresolved. vm_compute. intros [H|[H|H]]; discriminate.
  - vm_compute. repeat constructor.
Defined.

Lemma saveUserRoles_retry_resumes_witness :
  let w := start (assignedStore [(IdNum 2, Some "row is referenced")]) in
  let w' := snd (saveUserRoles tt alice [pair 1 99] w) in
  toAddPairs (associationsOf (db w') (User.id alice)) [pair 1 99] = [] /\
  toRemoveChannelRoles (associationsOf (db w') (User.id alice)) [pair 1 99] = [row2].
Proof.
  apply (saveUserRoles_retry_resumes tt alice [pair 1 99]
           (start (assignedStore [(IdNum 2, Some "row is referenced")]))
           [ChannelRole.mk (IdNum 3) (IdNum 42) (IdNum 1) (IdNum 99)]
           (snd (createAll tt alice [pair 1 99]
                   (start (assignedStore [(IdNum 2, Some "row is referenced")]))))
           [row1] [] row2 (Some "row is referenced")).
  - apply primaryKeysOkb_sound. reflexivity.
  - vm_compute. reflexivity.
  - reflexivity.
  - repeat constructor.
  - reflexivity.
Defined.
